(** * BadCppLib modular build system ([scripts/modular_build.py])

    A shallow embedding of [ModularBuildSystem]: the module registry, the
    dependency resolver, the gathering of sources and defines, the
    compile/archive pipeline, the test runner and [main], followed by the
    properties of the resolver and of the pipeline. *)

From Stdlib Require Import ZArith Ascii.
From stdpp Require Import gmap strings list pretty.

(** ** Data model *)

(** [pathlib.Path], kept as its string form.  [a / b] joins with a slash;
    the second part is relative in all the code's uses. *)
Definition Path := string.

Definition path_join (a : Path) (b : string) : Path := a +:+ "/" +:+ b.

(** One value of the [self.modules] dictionary.  [required] is read with
    [info.get('required', False)]. *)
Record Module := {
  description : string;
  depends : list string;
  headers : list string;
  sources : list string;
  defines : list string;
  required : bool
}.

(** One value of the [self.compilers] dictionary. *)
Record Compiler := {
  command : string;
  flags : list string
}.

(** The instance.  A Python dict keeps its keys in insertion order, so the
    two dictionaries are association lists in declaration order, with one
    entry per key. *)
Record ModularBuildSystem := {
  project_root : Path;
  include_dir : Path;
  src_dir : Path;
  build_dir : Path;
  tests_dir : Path;
  modules : list (string * Module);
  compilers : list (string * Compiler)
}.

(** [d[key]] and [key in d] on a dictionary. *)
Fixpoint dict_get {V : Type} (d : list (string * V)) (key : string) : option V :=
  match d with
  | [] => None
  | (k, v) :: d' => if decide (k = key) then Some v else dict_get d' key
  end.

Definition dict_keys {V : Type} (d : list (string * V)) : list string := d.*1.

Definition registered (self : ModularBuildSystem) (name : string) : Prop :=
  is_Some (dict_get (modules self) name).

(** The registry of [__init__], lines 41-120. *)
Definition declared_modules : list (string * Module) :=
  [ ("core",
     {| description := "Core types and utilities";
        depends := [];
        headers := ["badcpplib/core.hpp"];
        sources := [];
        defines := ["BADCPPLIB_ENABLE_CORE"];
        required := true |});
    ("result",
     {| description := "Result<T,E> type for error handling";
        depends := ["core"];
        headers := ["badcpplib/result.hpp"];
        sources := [];
        defines := ["BADCPPLIB_ENABLE_RESULT"];
        required := false |});
    ("string_utils",
     {| description := "String manipulation utilities";
        depends := ["core"];
        headers := ["badcpplib/string_utils.hpp"];
        sources := ["modules/string_utils.cpp"];
        defines := ["BADCPPLIB_ENABLE_STRING"];
        required := false |});
    ("math_utils",
     {| description := "Mathematical functions and utilities";
        depends := ["core"];
        headers := ["badcpplib/math_utils.hpp"];
        sources := ["modules/math_utils.cpp"];
        defines := ["BADCPPLIB_ENABLE_MATH"];
        required := false |});
    ("containers",
     {| description := "Custom container classes";
        depends := ["core"];
        headers := ["badcpplib/containers.hpp"];
        sources := [];
        defines := ["BADCPPLIB_ENABLE_CONTAINERS"];
        required := false |});
    ("file_utils",
     {| description := "File and filesystem utilities";
        depends := ["core"; "result"];
        headers := ["badcpplib/file_utils.hpp"];
        sources := [];
        defines := ["BADCPPLIB_ENABLE_FILE_UTILS"];
        required := false |});
    ("time_utils",
     {| description := "Time and duration utilities";
        depends := ["core"; "result"];
        headers := ["badcpplib/time_utils.hpp"];
        sources := [];
        defines := ["BADCPPLIB_ENABLE_TIME_UTILS"];
        required := false |});
    ("functional",
     {| description := "Functional programming utilities";
        depends := ["core"];
        headers := ["badcpplib/functional.hpp"];
        sources := [];
        defines := ["BADCPPLIB_ENABLE_FUNCTIONAL"];
        required := false |});
    ("debug",
     {| description := "Debug and logging utilities";
        depends := ["core"; "time_utils"];
        headers := ["badcpplib/debug.hpp"];
        sources := [];
        defines := ["BADCPPLIB_ENABLE_DEBUG"];
        required := false |});
    ("memory",
     {| description := "Memory management utilities";
        depends := ["core"];
        headers := ["badcpplib/memory.hpp"];
        sources := [];
        defines := ["BADCPPLIB_ENABLE_MEMORY"];
        required := false |});
    ("test_framework",
     {| description := "Custom testing framework";
        depends := ["core"];
        headers := ["badcpplib/test_framework.hpp"];
        sources := ["modules/test_framework.cpp"];
        defines := ["BADCPPLIB_ENABLE_TEST"];
        required := false |}) ].

(** The compilers of [__init__], lines 123-136. *)
Definition declared_compilers : list (string * Compiler) :=
  [ ("g++", {| command := "g++";
               flags := ["-std=c++17"; "-Wall"; "-Wextra"; "-Wpedantic"] |});
    ("clang++", {| command := "clang++";
                   flags := ["-std=c++17"; "-Wall"; "-Wextra"; "-Wpedantic"] |});
    ("cl", {| command := "cl"; flags := ["/std:c++17"; "/W4"] |}) ].

(** [__init__]: [root] is [Path(__file__).parent.parent]. *)
Definition init (root : Path) : ModularBuildSystem :=
  {| project_root := root;
     include_dir := path_join root "include";
     src_dir := path_join root "src";
     build_dir := path_join root "build_cmake";
     tests_dir := path_join root "tests";
     modules := declared_modules;
     compilers := declared_compilers |}.

(** ** Exceptions *)

(** The exceptions the code can end with: the [ValueError]s it raises
    itself, the [KeyError] of a failed [self.modules[...]], and the
    interpreter's [RecursionError] when the call stack is exhausted. *)
Inductive exn :=
| ValueError (msg : string)
| KeyError (key : string)
| RecursionError.

Inductive outcome (A : Type) :=
| Returned (a : A)
| Raised (e : exn).
Arguments Returned {A} a.
Arguments Raised {A} e.

(** ** The dependency resolver *)

(** A [for] loop whose body updates the set [resolved] and may raise. *)
Fixpoint for_each (body : string -> gset string -> outcome (gset string))
    (names : list string) (resolved : gset string) : outcome (gset string) :=
  match names with
  | [] => Returned resolved
  | name :: rest =>
      match body name resolved with
      | Returned resolved' => for_each body rest resolved'
      | Raised e => Raised e
      end
  end.

(** The inner function [resolve_module], lines 142-155.  The closed-over
    set [resolved] is threaded through; [depth] is the number of nested
    calls the interpreter still allows, and a call made when none is left
    ends with [RecursionError]. *)
Fixpoint resolve_module (self : ModularBuildSystem) (depth : nat)
    (name : string) (resolved : gset string) : outcome (gset string) :=
  match depth with
  | O => Raised RecursionError
  | S depth' =>
      if decide (name ∈ resolved) then Returned resolved
      else
        match dict_get (modules self) name with
        | None => Raised (ValueError ("Unknown module: " +:+ name))
        | Some module =>
            match for_each (resolve_module self depth') (depends module) resolved with
            | Returned resolved' => Returned ({[ name ]} ∪ resolved')
            | Raised e => Raised e
            end
        end
  end.

(** [resolve_dependencies], lines 138-163: [core] first, then the request. *)
Definition resolve_dependencies (self : ModularBuildSystem) (depth : nat)
    (module_names : list string) : outcome (gset string) :=
  for_each (resolve_module self depth) ("core" :: module_names) ∅.

(** ** Strings and paths *)

(** The ANSI colours of class [Colors], lines 15-26. *)
Module Colors.
Definition ESC : string := String "027"%char "".
Definition RED := ESC +:+ "[91m".
Definition GREEN := ESC +:+ "[92m".
Definition YELLOW := ESC +:+ "[93m".
Definition BLUE := ESC +:+ "[94m".
Definition MAGENTA := ESC +:+ "[95m".
Definition CYAN := ESC +:+ "[96m".
Definition WHITE := ESC +:+ "[97m".
Definition BOLD := ESC +:+ "[1m".
Definition UNDERLINE := ESC +:+ "[4m".
Definition END := ESC +:+ "[0m".
End Colors.

Definition colorize (text color : string) : string :=
  color +:+ text +:+ Colors.END.

Definition NL : string := String "010"%char "".

(** [sep.join(l)]. *)
Definition join (sep : string) (l : list string) : string := String.concat sep l.

(** [sorted(l)] on strings: insertion sort by code points. *)
Fixpoint insert_sorted (x : string) (l : list string) : list string :=
  match l with
  | [] => [x]
  | y :: l' => if String.leb x y then x :: l else y :: insert_sorted x l'
  end.

Definition sorted (l : list string) : list string := foldr insert_sorted [] l.

(** The text after the last [sep] of [s], and the text before it. *)
Fixpoint after_last (sep : ascii) (s : string) : option string :=
  match s with
  | EmptyString => None
  | String c s' =>
      match after_last sep s' with
      | Some t => Some t
      | None => if Ascii.eqb c sep then Some s' else None
      end
  end.

Fixpoint before_last (sep : ascii) (s : string) : option string :=
  match s with
  | EmptyString => None
  | String c s' =>
      match before_last sep s' with
      | Some t => Some (String c t)
      | None => if Ascii.eqb c sep then Some EmptyString else None
      end
  end.

(** [Path.name]: the last component, of a path that does not end with a
    slash. *)
Definition path_name (p : Path) : string :=
  match after_last "/"%char p with Some n => n | None => p end.

(** [Path.stem]: the name without its last suffix; a dot that starts or
    ends the name opens no suffix. *)
Definition path_stem (p : Path) : string :=
  let name := path_name p in
  match before_last "."%char name, after_last "."%char name with
  | Some pre, Some suf =>
      if decide (pre = "" ∨ suf = "") then name else pre
  | _, _ => name
  end.

(** [str(e)] as [main] prints it; for [RecursionError] the text the
    interpreter gives it. *)
Definition exn_str (e : exn) : string :=
  match e with
  | ValueError msg => msg
  | KeyError key => "'" +:+ key +:+ "'"
  | RecursionError => "maximum recursion depth exceeded"
  end.

(** ** The host: file system and external processes *)

(** What [subprocess.run(..., capture_output=True, text=True)] returns. *)
Record CompletedProcess := {
  returncode : Z;
  stdout : string;
  stderr : string
}.

(** The operating system as the code uses it.  A process that is started
    runs to completion and yields a [CompletedProcess]; it may change the
    world (files written by the compiler or the archiver). *)
Class Host (World : Type) := {
  path_exists : Path → World → bool;
  mkdir : Path → World → World;
  subprocess_run : list string → option Path → World → CompletedProcess * World
}.

(** What a run does that can be observed from outside, each process tagged
    with the call that starts it: [EvCompile] for lines 275 and 303,
    [EvArchive] for line 314, [EvTestCompile] for line 383 and [EvTestRun]
    for line 390. *)
Inductive event :=
| EvPrint (line : string)
| EvMkdir (dir : Path)
| EvCompile (src : Path) (cmd : list string) (result : CompletedProcess)
| EvArchive (cmd : list string) (result : CompletedProcess)
| EvTestCompile (test : Path) (cmd : list string) (result : CompletedProcess)
| EvTestRun (test : Path) (cmd : list string) (result : CompletedProcess).

(** A computation reads and changes the world, emits events, and returns
    or raises. *)
Definition M (World : Type) (A : Type) : Type :=
  World → outcome A * World * list event.

Global Instance M_ret {World} : MRet (M World) := λ A a w, (Returned a, w, []).

Global Instance M_bind {World} : MBind (M World) := λ A B k m w,
  match m w with
  | (Returned a, w1, evs1) =>
      match k a w1 with
      | (r, w2, evs2) => (r, w2, evs1 ++ evs2)
      end
  | (Raised e, w1, evs1) => (Raised e, w1, evs1)
  end.

Section Effects.
Context {World : Type} `{!Host World}.

(** [try: body except Exception as e: handler(e)]. *)
Definition try_except {A} (body : M World A) (handler : exn → M World A) : M World A :=
  λ w,
  match body w with
  | (Returned a, w1, evs1) => (Returned a, w1, evs1)
  | (Raised e, w1, evs1) =>
      match handler e w1 with
      | (r, w2, evs2) => (r, w2, evs1 ++ evs2)
      end
  end.

(** A pure computation that may raise. *)
Definition lift {A} (o : outcome A) : M World A := λ w, (o, w, []).

Definition print (line : string) : M World unit :=
  λ w, (Returned (), w, [EvPrint line]).

Definition exists_ (p : Path) : M World bool :=
  λ w, (Returned (path_exists p w), w, []).

Definition make_dir (p : Path) : M World unit :=
  λ w, (Returned (), mkdir p w, [EvMkdir p]).

Definition run_process (tag : list string → CompletedProcess → event)
    (cmd : list string) (cwd : option Path) : M World CompletedProcess :=
  λ w,
  match subprocess_run cmd cwd w with
  | (result, w1) => (Returned result, w1, [tag cmd result])
  end.
End Effects.

(** ** Commands, sources and defines *)

(** [get_compiler_command], lines 181-202. *)
Definition get_compiler_command (self : ModularBuildSystem)
    (compiler build_type : string) : outcome (list string) :=
  match dict_get (compilers self) compiler with
  | None => Raised (ValueError ("Unknown compiler: " +:+ compiler))
  | Some comp_info =>
      let cmd := command comp_info :: flags comp_info in
      Returned
        (if decide (build_type = "debug") then
           if decide (compiler = "cl") then cmd ++ ["/Od"; "/Zi"; "/MDd"]
           else cmd ++ ["-g"; "-O0"]
         else if decide (build_type = "release") then
           if decide (compiler = "cl") then cmd ++ ["/O2"; "/MD"; "/DNDEBUG"]
           else cmd ++ ["-O2"; "-DNDEBUG"]
         else cmd)
  end.

(** [self.modules[module_name]]. *)
Definition module_of (self : ModularBuildSystem) (module_name : string) : outcome Module :=
  match dict_get (modules self) module_name with
  | Some module => Returned module
  | None => Raised (KeyError module_name)
  end.

Section Pipeline.
Context {World : Type} `{!Host World}.

(** The inner loop of [collect_sources], lines 210-215. *)
Fixpoint collect_module_sources (self : ModularBuildSystem)
    (srcs : list string) (acc : list Path) : M World (list Path) :=
  match srcs with
  | [] => mret acc
  | src :: rest =>
      let src_path := path_join (src_dir self) src in
      found ← exists_ src_path;
      if (found : bool) then collect_module_sources self rest (acc ++ [src_path])
      else
        print (colorize ("Warning: file " +:+ src_path +:+ " not found") Colors.YELLOW);;
        collect_module_sources self rest acc
  end.

(** The outer loop of [collect_sources], lines 208-215.  The argument
    [modules] of the source is a set: a Python set is iterated in an
    order the language leaves open, so the functions that iterate one
    take it as the sequence it is iterated in. *)
Fixpoint collect_sources_from (self : ModularBuildSystem)
    (module_names : list string) (acc : list Path) : M World (list Path) :=
  match module_names with
  | [] => mret acc
  | module_name :: rest =>
      module ← lift (module_of self module_name);
      acc' ← collect_module_sources self (sources module) acc;
      collect_sources_from self rest acc'
  end.

(** [collect_sources], lines 204-217. *)
Definition collect_sources (self : ModularBuildSystem)
    (module_names : list string) : M World (list Path) :=
  collect_sources_from self module_names [].
End Pipeline.

(** [collect_defines], lines 219-227. *)
Fixpoint collect_defines_from (self : ModularBuildSystem)
    (module_names : list string) (acc : list string) : outcome (list string) :=
  match module_names with
  | [] => Returned acc
  | module_name :: rest =>
      match module_of self module_name with
      | Returned module => collect_defines_from self rest (acc ++ defines module)
      | Raised e => Raised e
      end
  end.

Definition collect_defines (self : ModularBuildSystem)
    (module_names : list string) : outcome (list string) :=
  collect_defines_from self module_names [].

(** ** Building the library *)

Section Build.
Context {World : Type} `{!Host World}.

(** The two compile loops of [build_library], lines 269-280 and 287-308:
    they differ in the command [obj_cmd_of src] and in the object file
    [obj_file_of src].  The result is [None] when the loop leaves the
    function with [return False] and the list [obj_files] otherwise. *)
Fixpoint compile_objects (obj_cmd_of : Path → outcome (list string))
    (obj_file_of : Path → Path) (srcs : list Path) (obj_files : list string)
    : M World (option (list string)) :=
  match srcs with
  | [] => mret (Some obj_files)
  | src :: rest =>
      obj_cmd ← lift (obj_cmd_of src);
      print ("Compiling " +:+ path_name src +:+ "...");;
      result ← run_process (EvCompile src) obj_cmd None;
      if decide (returncode result ≠ 0%Z) then
        print (colorize ("Compilation error " +:+ path_name src +:+ ":") Colors.RED);;
        print (stderr result);;
        mret None
      else compile_objects obj_cmd_of obj_file_of rest (obj_files ++ [obj_file_of src])
  end.

(** The end of [build_library], lines 313-321. *)
Definition create_library (lib_cmd : list string) (output_file : Path) : M World bool :=
  print "Creating library...";;
  result ← run_process EvArchive lib_cmd None;
  if decide (returncode result ≠ 0%Z) then
    print (colorize "Library creation error:" Colors.RED);;
    print (stderr result);;
    mret false
  else
    print (colorize ("Library created: " +:+ output_file) Colors.GREEN);;
    mret true.

(** [build_library], lines 229-321.  [module_names] is the set [modules]
    in its iteration order. *)
Definition build_library (self : ModularBuildSystem) (module_names : list string)
    (compiler build_type : string) : M World bool :=
  print (colorize ("Building library with modules: " +:+ join ", " (sorted module_names))
           Colors.BOLD);;
  make_dir (build_dir self);;
  srcs ← collect_sources self module_names;
  defs ← lift (collect_defines self module_names);
  match srcs with
  | [] => print (colorize "No source files to compile" Colors.YELLOW);; mret true
  | _ :: _ =>
      cmd ← lift (get_compiler_command self compiler build_type);
      let is_cl := bool_decide (compiler = "cl") in
      let cmd := cmd ++ ((λ d, (if is_cl then "/D" else "-D") +:+ d) <$> defs) in
      let cmd := cmd ++ [(if is_cl then "/I" else "-I") +:+ include_dir self] in
      let cmd := cmd ++ srcs in
      let output_file :=
        path_join (build_dir self) ("libbadcpplib." +:+ (if is_cl then "lib" else "a")) in
      objs ← (if is_cl then
                compile_objects
                  (λ src, Returned
                     (cmd ++ ["/Fo" +:+ path_join (build_dir self) (path_stem src +:+ ".obj");
                              "/c"; src]))
                  (λ src, path_join (build_dir self) (path_stem src +:+ ".obj"))
                  srcs []
              else
                compile_objects
                  (λ src,
                     match get_compiler_command self compiler build_type with
                     | Returned src_cmd =>
                         Returned
                           (src_cmd ++ ((λ d, "-D" +:+ d) <$> defs)
                              ++ ["-I" +:+ include_dir self]
                              ++ ["-c"; src; "-o";
                                  path_join (build_dir self) (path_stem src +:+ ".o")])
                     | Raised e => Raised e
                     end)
                  (λ src, path_join (build_dir self) (path_stem src +:+ ".o"))
                  srcs []);
      match objs with
      | None => mret false
      | Some obj_files =>
          let lib_cmd :=
            if is_cl then ["lib"; "/OUT:" +:+ output_file] ++ obj_files
            else ["ar"; "rcs"; output_file] ++ obj_files in
          create_library lib_cmd output_file
      end
  end.
End Build.

(** ** Building and running the tests *)

Section Tests.
Context {World : Type} `{!Host World}.

(** The discovery loop of [build_tests], lines 336-339. *)
Fixpoint discover_module_tests (self : ModularBuildSystem)
    (module_names : list string) (test_files : list Path) : M World (list Path) :=
  match module_names with
  | [] => mret test_files
  | module_name :: rest =>
      let test_file :=
        path_join (path_join (tests_dir self) "modules")
                  ("test_" +:+ module_name +:+ ".cpp") in
      found ← exists_ test_file;
      discover_module_tests self rest
        (if (found : bool) then test_files ++ [test_file] else test_files)
  end.

(** Test discovery, lines 328-339: the basic test, then one per module. *)
Definition discover_tests (self : ModularBuildSystem)
    (module_names : list string) : M World (list Path) :=
  let basic_test := path_join (tests_dir self) "basic_test.cpp" in
  found ← exists_ basic_test;
  discover_module_tests self module_names (if (found : bool) then [basic_test] else []).

(** The body of the test loop, lines 349-401; the result tells whether
    [success_count] is incremented. *)
Definition run_test (self : ModularBuildSystem) (module_names : list string)
    (compiler build_type : string) (test_file : Path) : M World bool :=
  print (NL +:+ "Test: " +:+ colorize (path_name test_file) Colors.CYAN);;
  cmd ← lift (get_compiler_command self compiler build_type);
  defs ← lift (collect_defines self module_names);
  let is_cl := bool_decide (compiler = "cl") in
  let cmd := cmd ++ ((λ d, (if is_cl then "/D" else "-D") +:+ d) <$> defs) in
  let cmd := cmd ++ [(if is_cl then "/I" else "-I") +:+ include_dir self] in
  let cmd := cmd ++ [test_file] in
  srcs ← collect_sources self module_names;
  let cmd := cmd ++ srcs in
  let exe_name := path_stem test_file +:+ (if is_cl then ".exe" else "") in
  let output_file := path_join (build_dir self) exe_name in
  let cmd := cmd ++ (if is_cl then ["/Fe" +:+ output_file] else ["-o"; output_file]) in
  result ← run_process (EvTestCompile test_file) cmd None;
  if decide (returncode result ≠ 0%Z) then
    print (colorize ("Test compilation error " +:+ path_name test_file +:+ ":") Colors.RED);;
    print (stderr result);;
    mret false
  else
    result ← run_process (EvTestRun test_file) [output_file] (Some (project_root self));
    if decide (returncode result = 0%Z) then
      print (colorize "✓ PASSED" Colors.GREEN);;
      mret true
    else
      print (colorize "✗ FAILED" Colors.RED);;
      (if decide (stdout result ≠ "") then print ("STDOUT: " +:+ stdout result) else mret ());;
      (if decide (stderr result ≠ "") then print ("STDERR: " +:+ stderr result) else mret ());;
      mret false.

(** The test loop, lines 348-401, threading [success_count]. *)
Fixpoint run_tests (self : ModularBuildSystem) (module_names : list string)
    (compiler build_type : string) (test_files : list Path) (success_count : nat)
    : M World nat :=
  match test_files with
  | [] => mret success_count
  | test_file :: rest =>
      passed ← run_test self module_names compiler build_type test_file;
      run_tests self module_names compiler build_type rest
        (if (passed : bool) then S success_count else success_count)
  end.

(** [build_tests], lines 323-411. *)
Definition build_tests (self : ModularBuildSystem) (module_names : list string)
    (compiler build_type : string) : M World bool :=
  print (colorize "Building and running tests" Colors.BOLD);;
  test_files ← discover_tests self module_names;
  match test_files with
  | [] => print (colorize "Test files not found" Colors.YELLOW);; mret true
  | _ :: _ =>
      let total_count := length test_files in
      success_count ← run_tests self module_names compiler build_type test_files 0;
      print (NL +:+ "Test results: "
               +:+ colorize (pretty success_count +:+ "/" +:+ pretty total_count) Colors.BOLD);;
      if decide (success_count = total_count) then
        print (colorize "All tests passed successfully! ✓" Colors.GREEN);;
        mret true
      else
        print (colorize ("Failed tests: " +:+ pretty (total_count - success_count)) Colors.RED);;
        mret false
  end.
End Tests.

(** ** The command line *)

(** The parsed arguments of [main], lines 414-433. *)
Record Args := {
  arg_modules : list string;
  arg_list_modules : bool;
  arg_minimal : bool;
  arg_full : bool;
  arg_compiler : string;
  arg_build_type : string;
  arg_test : bool;
  arg_test_only : bool
}.

(** The requested set [modules_to_build] of [main], lines 442-449. *)
Definition modules_to_build (build_system : ModularBuildSystem) (args : Args)
    : gset string :=
  if arg_minimal args then {[ "core"; "result" ]}
  else if arg_full args || bool_decide ("all" ∈ arg_modules args)
       then list_to_set (dict_keys (modules build_system))
       else list_to_set (arg_modules args).

(** The set [test_modules] of line 470. *)
Definition test_modules (resolved_modules : gset string) : gset string :=
  resolved_modules ∪ {[ "test_framework" ]}.

Section Main.
Context {World : Type} `{!Host World}.

(** [list_modules], lines 165-179. *)
Fixpoint list_module_items (items : list (string * Module)) : M World unit :=
  match items with
  | [] => mret ()
  | (name, info) :: rest =>
      let status := if required info then colorize "[REQUIRED]" Colors.GREEN else "" in
      print ("  " +:+ colorize name Colors.YELLOW +:+ " " +:+ status);;
      print ("    " +:+ description info);;
      (match depends info with
       | [] => mret ()
       | _ :: _ =>
           print ("    Dependencies: "
                    +:+ colorize (join ", " (depends info)) Colors.MAGENTA)
       end);;
      print "";;
      list_module_items rest
  end.

Definition list_modules (self : ModularBuildSystem) : M World unit :=
  print (colorize "Available modules:" (Colors.BOLD +:+ Colors.CYAN));;
  print "";;
  list_module_items (modules self).

(** The loop of lines 456-458. *)
Fixpoint print_selected (self : ModularBuildSystem) (names : list string) : M World unit :=
  match names with
  | [] => mret ()
  | module :: rest =>
      info ← lift (module_of self module);
      print ("  • " +:+ colorize module Colors.YELLOW +:+ " - " +:+ description info);;
      print_selected self rest
  end.

(** [main], lines 413-478, after the arguments are parsed.  [root] is
    the directory above the script, [depth] the number of nested calls
    the interpreter allows the resolver, and [iter] the order in which
    each set is iterated. *)
Definition main (root : Path) (depth : nat) (iter : gset string → list string)
    (args : Args) : M World Z :=
  let build_system := init root in
  if arg_list_modules args then
    list_modules build_system;; mret 0%Z
  else
    try_except
      (resolved_modules ←
         lift (resolve_dependencies build_system depth
                 (iter (modules_to_build build_system args)));
       print (colorize "Selected modules:" Colors.BOLD);;
       print_selected build_system (sorted (iter resolved_modules));;
       print "";;
       success ← (if negb (arg_test_only args)
                  then build_library build_system (iter resolved_modules)
                         (arg_compiler args) (arg_build_type args)
                  else mret true);
       success ← (if arg_test args || arg_test_only args
                  then
                    test_success ←
                      build_tests build_system (iter (test_modules resolved_modules))
                        (arg_compiler args) (arg_build_type args);
                    mret (success && test_success)
                  else mret success);
       mret (if (success : bool) then 0%Z else 1%Z))
      (λ e, print (colorize ("Error: " +:+ exn_str e) Colors.RED);; mret 1%Z).
End Main.

(** * Vocabulary of the properties *)

(** ** Closure, rank and cycles *)

(** A set of names is dependency-closed when it holds every dependency of
    each of its registered members. *)
Definition dependency_closed (self : ModularBuildSystem) (s : gset string) : Prop :=
  ∀ m info, m ∈ s → dict_get (modules self) m = Some info →
    ∀ d, d ∈ depends info → d ∈ s.

Definition all_registered (self : ModularBuildSystem) (s : gset string) : Prop :=
  ∀ m, m ∈ s → registered self m.

Definition closed_registered (self : ModularBuildSystem) (s : gset string) : Prop :=
  dependency_closed self s ∧ all_registered self s.

(** A rank that every dependency edge of the registry decreases; the
    registry then has no cycle and no unregistered dependency. *)
Definition ranked (self : ModularBuildSystem) (rank : string → nat) : Prop :=
  ∀ n info, dict_get (modules self) n = Some info →
    ∀ d, d ∈ depends info → registered self d ∧ rank d < rank n.

(** The rank decreases along every dependency edge of the registry: the
    registry has no cycle.  Dependencies may be unregistered. *)
Definition rank_decreasing (self : ModularBuildSystem) (rank : string → nat) : Prop :=
  ∀ n info, dict_get (modules self) n = Some info →
    ∀ d, d ∈ depends info → rank d < rank n.

(** The length of the longest dependency chain below each declared module. *)
Definition declared_rank (name : string) : nat :=
  if decide (name = "debug") then 3
  else if decide (name = "file_utils" ∨ name = "time_utils") then 2
  else if decide (name = "core") then 0
  else 1.

(** [depends_on self a b]: the registry lists [b] as a dependency of [a]. *)
Definition depends_on (self : ModularBuildSystem) (a b : string) : Prop :=
  ∃ info, dict_get (modules self) a = Some info ∧ b ∈ depends info.

Definition reaches (self : ModularBuildSystem) : string → string → Prop :=
  rtc (depends_on self).



(** ** Events *)

(** An event that starts no process. *)
Definition quiet (ev : event) : Prop :=
  match ev with
  | EvPrint _ | EvMkdir _ => True
  | _ => False
  end.

(** What [build_library] does last when the compiler fails on [src]: the
    failed process, then the two lines of lines 277-278 (305-306). *)
Definition compile_failure_report (src : Path) (cmd : list string)
    (result : CompletedProcess) : list event :=
  [ EvCompile src cmd result;
    EvPrint (colorize ("Compilation error " +:+ path_name src +:+ ":") Colors.RED);
    EvPrint (stderr result) ].

Definition not_archive (ev : event) : Prop :=
  match ev with
  | EvArchive _ _ => False
  | _ => True
  end.

Definition not_compile (ev : event) : Prop :=
  match ev with
  | EvCompile _ _ _ => False
  | _ => True
  end.






(** The sources one module contributes: those of its declared sources
    that exist, in declared order. *)
Definition module_sources {World : Type} `{!Host World} (self : ModularBuildSystem)
    (w : World) (module_name : string) : list Path :=
  match dict_get (modules self) module_name with
  | Some module =>
      filter (λ p, path_exists p w) (path_join (src_dir self) <$> sources module)
  | None => []
  end.

(** The warnings one module causes: one line for each of its declared
    sources that does not exist, in declared order. *)
Definition module_warnings {World : Type} `{!Host World} (self : ModularBuildSystem)
    (w : World) (module_name : string) : list event :=
  match dict_get (modules self) module_name with
  | Some module =>
      (λ p, EvPrint (colorize ("Warning: file " +:+ p +:+ " not found") Colors.YELLOW))
        <$> filter (λ p, ¬ path_exists p w) (path_join (src_dir self) <$> sources module)
  | None => []
  end.

(** The defines of one module; none for a name that is not registered. *)
Definition module_defines (self : ModularBuildSystem) (module_name : string)
    : list string :=
  match dict_get (modules self) module_name with
  | Some module => defines module
  | None => []
  end.

(** The test file of a module, line 337. *)
Definition test_file_of (self : ModularBuildSystem) (module_name : string) : Path :=
  path_join (path_join (tests_dir self) "modules") ("test_" +:+ module_name +:+ ".cpp").



(** The processes of a run, whatever call started them. *)
Definition starts_process (ev : event) : Prop := ¬ quiet ev.

(** The executable of a test, lines 374-375, and the command that
    compiles it, lines 352-380, with the sources that exist in [w]. *)
Definition test_executable (self : ModularBuildSystem) (compiler : string)
    (test_file : Path) : Path :=
  path_join (build_dir self)
    (path_stem test_file +:+ (if bool_decide (compiler = "cl") then ".exe" else "")).

Definition test_command {World : Type} `{!Host World} (self : ModularBuildSystem)
    (module_names : list string) (compiler build_type : string) (w : World)
    (test_file : Path) : list string :=
  let is_cl := bool_decide (compiler = "cl") in
  match get_compiler_command self compiler build_type with
  | Returned cmd =>
      cmd
      ++ ((λ d, (if is_cl then "/D" else "-D") +:+ d)
            <$> (module_names ≫= module_defines self))
      ++ [(if is_cl then "/I" else "-I") +:+ include_dir self]
      ++ [test_file]
      ++ (module_names ≫= module_sources self w)
      ++ (if is_cl then ["/Fe" +:+ test_executable self compiler test_file]
          else ["-o"; test_executable self compiler test_file])
  | Raised _ => []
  end.

(** What a test run may do: print, compile a test with the command above
    for some state of the disk, and run the executable of a test with no
    argument. *)
Definition test_run_event {World : Type} `{!Host World} (self : ModularBuildSystem)
    (module_names : list string) (compiler build_type : string) (ev : event) : Prop :=
  match ev with
  | EvPrint _ => True
  | EvTestCompile test_file cmd _ =>
      ∃ w : World, cmd = test_command self module_names compiler build_type w test_file
  | EvTestRun test_file cmd _ => cmd = [test_executable self compiler test_file]
  | _ => False
  end.

(** ** Instances for examples *)

Definition process_ok : CompletedProcess :=
  {| returncode := 0; stdout := ""; stderr := "" |}.

(** A host for examples: every path exists, and the world is the list of
    the results that the processes still to be started will yield, exit
    status 0 once the list is used up. *)
Global Instance scripted_host : Host (list CompletedProcess) := {
  path_exists _ _ := true;
  mkdir _ w := w;
  subprocess_run _ _ w :=
    match w with
    | [] => (process_ok, [])
    | result :: rest => (result, rest)
    end
}.

(** A host with an empty disk: no path exists, and every process exits
    with status 0. *)
Definition empty_disk_host : Host unit :=
  {| path_exists := λ _ _, false;
     mkdir := λ _ w, w;
     subprocess_run := λ _ _ w, (process_ok, w) |}.

Definition process_failed (diagnostics : string) : CompletedProcess :=
  {| returncode := 1; stdout := ""; stderr := diagnostics |}.

Definition with_modules (registry : list (string * Module)) : ModularBuildSystem :=
  {| project_root := "/repo";
     include_dir := "/repo/include";
     src_dir := "/repo/src";
     build_dir := "/repo/build_cmake";
     tests_dir := "/repo/tests";
     modules := registry;
     compilers := declared_compilers |}.

Definition plain_module (deps srcs defs : list string) : Module :=
  {| description := ""; depends := deps; headers := [];
     sources := srcs; defines := defs; required := false |}.

(** A registry with a cycle: [a] and [b] depend on each other. *)
Definition cyclic_system : ModularBuildSystem :=
  with_modules
    [ ("core", plain_module [] [] []);
      ("a", plain_module ["b"] [] []);
      ("b", plain_module ["a"] [] []) ].

(** Two registries that differ only in the owner of [socket.cpp]: module
    [net] in the first, module [gfx] in the second. *)
Definition net_owns_socket : ModularBuildSystem :=
  with_modules
    [ ("core", plain_module [] [] ["ENABLE_CORE"]);
      ("net", plain_module ["core"] ["modules/socket.cpp"] ["ENABLE_NET"]);
      ("gfx", plain_module ["core"] [] ["ENABLE_GFX"]) ].

Definition gfx_owns_socket : ModularBuildSystem :=
  with_modules
    [ ("core", plain_module [] [] ["ENABLE_CORE"]);
      ("net", plain_module ["core"] [] ["ENABLE_NET"]);
      ("gfx", plain_module ["core"] ["modules/socket.cpp"] ["ENABLE_GFX"]) ].

(** * Properties *)

(** ** Dictionaries *)

Lemma dict_get_Some_elem {V} (d : list (string * V)) key v :
  dict_get d key = Some v → (key, v) ∈ d.
Proof.
  induction d as [|[k v'] d IH]; simpl; [done|].
  case_decide as Hk.
  - intros [= ->]. subst. left.
  - intros Hget. right. by apply IH.
Qed.

(** ** Closure under dependencies *)

Section ForEach.
Variable body : string → gset string → outcome (gset string).

Lemma for_each_inv (P : gset string → Prop) names r r' :
  for_each body names r = Returned r' →
  P r →
  (∀ n a b, n ∈ names → P a → body n a = Returned b → P b) →
  P r'.
Proof.
  revert r. induction names as [|n l IH]; simpl; intros r Hrun HP Hbody.
  - by injection Hrun as <-.
  - destruct (body n r) as [r1|e] eqn:Hn; [|done].
    apply (IH r1); [done| |].
    + eapply Hbody; [left | exact HP | exact Hn].
    + intros m ???. apply Hbody. by right.
Qed.

Lemma for_each_grows names r r' :
  for_each body names r = Returned r' →
  (∀ n a b, n ∈ names → body n a = Returned b → a ⊆ b ∧ n ∈ b) →
  r ⊆ r' ∧ ∀ n, n ∈ names → n ∈ r'.
Proof.
  revert r. induction names as [|n l IH]; simpl; intros r Hrun Hbody.
  - injection Hrun as <-. split; [done|]. by intros ? ?%elem_of_nil.
  - destruct (body n r) as [r1|e] eqn:Hn; [|done].
    destruct (Hbody n r r1) as [Hsub Hin]; [left | done |].
    destruct (IH r1) as [Hsub' Hin']; [done | |].
    { intros m ???. apply Hbody. by right. }
    split; [by transitivity r1|].
    intros m [->|Hm]%elem_of_cons; [by apply Hsub' | by apply Hin'].
Qed.

Lemma for_each_total names r :
  (∀ n a, n ∈ names → ∃ b, body n a = Returned b) →
  ∃ r', for_each body names r = Returned r'.
Proof.
  revert r. induction names as [|n l IH]; simpl; intros r Hbody; [by eexists|].
  destruct (Hbody n r) as [r1 ->]; [left|].
  apply IH. intros m r2 Hm. apply Hbody. by right.
Qed.
End ForEach.

Section Resolver.
Variable self : ModularBuildSystem.

(** A completed call has added [name] and removed nothing. *)
Lemma resolve_module_grows depth name r r' :
  resolve_module self depth name r = Returned r' → r ⊆ r' ∧ name ∈ r'.
Proof.
  revert name r r'. induction depth as [|depth IH]; intros name r r'; simpl; [done|].
  case_decide as Hin; [by intros [= <-]|].
  destruct (dict_get (modules self) name) as [module|]; [|done].
  destruct (for_each _ _ r) as [r1|e] eqn:Hdeps; [|done].
  intros [= <-].
  apply for_each_grows in Hdeps as [Hsub _]; [|intros n a b _; apply IH].
  split; [by apply union_subseteq_r' | by apply elem_of_union_l, elem_of_singleton].
Qed.

(** A completed call keeps the set closed and inside the registry. *)
Lemma resolve_module_closed depth name r r' :
  resolve_module self depth name r = Returned r' →
  closed_registered self r → closed_registered self r'.
Proof.
  revert name r r'. induction depth as [|depth IH]; intros name r r'; simpl; [done|].
  case_decide as Hin; [by intros [= <-]|].
  destruct (dict_get (modules self) name) as [module|] eqn:Hget; [|done].
  destruct (for_each _ _ r) as [r1|e] eqn:Hdeps; [|done].
  intros [= <-] Hr.
  assert (closed_registered self r1) as [Hc1 Hr1].
  { apply (for_each_inv _ (closed_registered self) _ _ _ Hdeps Hr).
    intros n a b _ Ha Hn. by eapply IH. }
  apply for_each_grows in Hdeps as [_ Hdeps]; [|intros n a b _; apply resolve_module_grows].
  split.
  - intros m info [->%elem_of_singleton|Hm]%elem_of_union Hinfo d Hd.
    + rewrite Hget in Hinfo. injection Hinfo as <-. set_solver.
    + apply elem_of_union_r. by eapply Hc1.
  - intros m [->%elem_of_singleton|Hm]%elem_of_union; [by eexists | by apply Hr1].
Qed.

(** A completed call stays inside every closed set that holds [name]
    and what was resolved before. *)
Lemma resolve_module_least (T : gset string) depth name r r' :
  dependency_closed self T →
  resolve_module self depth name r = Returned r' →
  name ∈ T → r ⊆ T → r' ⊆ T.
Proof.
  intros HT.
  revert name r r'. induction depth as [|depth IH]; intros name r r'; simpl; [done|].
  case_decide as Hin; [by intros [= <-]|].
  destruct (dict_get (modules self) name) as [module|] eqn:Hget; [|done].
  destruct (for_each _ _ r) as [r1|e] eqn:Hdeps; [|done].
  intros [= <-] Hname Hr.
  assert (r1 ⊆ T) as Hr1;
    [|apply union_subseteq; split; [by apply singleton_subseteq_l | done]].
  apply (for_each_inv _ (λ s, s ⊆ T) _ _ _ Hdeps Hr).
  intros n a b Hn Ha Hb. eapply IH; [exact Hb | | done].
  by eapply HT.
Qed.

Lemma closed_registered_empty : closed_registered self ∅.
Proof. split; [intros m info Hm | intros m Hm]; set_solver. Qed.

(** What a returned set is: closed, registered, and holding [core] and
    the request. *)
Lemma resolve_dependencies_returned depth R res :
  resolve_dependencies self depth R = Returned res →
  closed_registered self res ∧ "core" ∈ res ∧ ∀ n, n ∈ R → n ∈ res.
Proof.
  unfold resolve_dependencies. intros Hres.
  assert (closed_registered self res).
  { apply (for_each_inv _ (closed_registered self) _ _ _ Hres closed_registered_empty).
    intros n a b _ Ha Hn. by eapply resolve_module_closed. }
  apply for_each_grows in Hres as [_ Hres]; [|intros n a b _; apply resolve_module_grows].
  split_and!; [done| |].
  - apply Hres. left.
  - intros n Hn. apply Hres. by right.
Qed.

Lemma resolve_dependencies_least (T : gset string) depth R res :
  dependency_closed self T → "core" ∈ T → (∀ n, n ∈ R → n ∈ T) →
  resolve_dependencies self depth R = Returned res → res ⊆ T.
Proof.
  intros HT Hcore HR Hres. unfold resolve_dependencies in Hres.
  apply (for_each_inv _ (λ s, s ⊆ T) _ _ _ Hres); [done|].
  intros n a b Hn Ha Hb. eapply resolve_module_least; [done | exact Hb | | done].
  apply elem_of_cons in Hn as [->|Hn]; [done | by apply HR].
Qed.

(** *** Termination on a ranked registry *)

Lemma resolve_module_total rank depth name r :
  ranked self rank → registered self name → rank name < depth →
  ∃ r', resolve_module self depth name r = Returned r'.
Proof.
  intros Hrank. revert name r.
  induction depth as [|depth IH]; intros name r [module Hget] Hlt; simpl; [lia|].
  case_decide; [by eexists|].
  rewrite Hget.
  destruct (for_each_total (resolve_module self depth) (depends module) r)
    as [r1 ->]; [|by eexists].
  intros d a Hd. destruct (Hrank _ _ Hget d Hd) as [Hreg Hd_lt].
  apply IH; [done | lia].
Qed.

Lemma resolve_dependencies_total rank depth R :
  ranked self rank → registered self "core" → Forall (registered self) R →
  (∀ n, registered self n → rank n < depth) →
  ∃ res, resolve_dependencies self depth R = Returned res.
Proof.
  intros Hrank Hcore HR Hdepth. unfold resolve_dependencies.
  apply for_each_total. intros n r Hn.
  assert (registered self n).
  { apply elem_of_cons in Hn as [->|Hn]; [done|]. by eapply Forall_forall in HR. }
  eapply resolve_module_total; eauto.
Qed.
End Resolver.

(** ** The declared registry *)

Lemma declared_modules_distinct : NoDup (dict_keys declared_modules).
Proof. apply (bool_decide_unpack _). by vm_compute. Qed.

Lemma declared_ranked root : ranked (init root) declared_rank.
Proof.
  intros n info Hget d Hd.
  apply dict_get_Some_elem in Hget. simpl in Hget.
  assert (Forall (λ p, Forall (λ d, is_Some (dict_get declared_modules d)
                                    ∧ declared_rank d < declared_rank p.1)
                          (depends p.2)) declared_modules) as Hall.
  { apply (bool_decide_unpack _). by vm_compute. }
  rewrite Forall_forall in Hall. specialize (Hall _ Hget). simpl in Hall.
  rewrite Forall_forall in Hall. by apply Hall.
Qed.

Lemma declared_rank_bound name : declared_rank name < 4.
Proof. unfold declared_rank. repeat case_decide; lia. Qed.

Lemma declared_core_registered root : registered (init root) "core".
Proof. by eexists. Qed.

(** On the declared registry four nested calls are enough for every
    request of registered names. *)
Lemma declared_resolve_total root depth R :
  4 ≤ depth → Forall (registered (init root)) R →
  ∃ res, resolve_dependencies (init root) depth R = Returned res.
Proof.
  intros Hdepth HR.
  apply (resolve_dependencies_total _ declared_rank);
    [apply declared_ranked | apply declared_core_registered | done |].
  intros n _. pose proof (declared_rank_bound n). lia.
Qed.

(** ** The resolver on the declared registry *)

(** C1: for every requested list of registered names, the resolver returns
    a set, and that set is dependency-closed: with each member it holds
    every name of the member's dependency list. *)
Theorem resolve_dependencies_closed root depth R :
  4 ≤ depth → Forall (registered (init root)) R →
  ∃ res, resolve_dependencies (init root) depth R = Returned res
         ∧ ∀ m info, m ∈ res → dict_get (modules (init root)) m = Some info →
             ∀ d, d ∈ depends info → d ∈ res.
Proof.
  intros Hdepth HR.
  destruct (declared_resolve_total root depth R Hdepth HR) as [res Hres].
  exists res. split; [done|].
  by apply resolve_dependencies_returned in Hres as [[Hclosed _] _].
Qed.

Lemma resolve_dependencies_closed_witness :
  ∃ res, resolve_dependencies (init "/repo") 1000 ["debug"; "math_utils"] = Returned res
         ∧ ∀ m info, m ∈ res → dict_get (modules (init "/repo")) m = Some info →
             ∀ d, d ∈ depends info → d ∈ res.
Proof.
  apply (resolve_dependencies_closed "/repo" 1000 ["debug"; "math_utils"]).
  - lia.
  - repeat constructor; by eexists.
Defined.

(** C7: for every requested list of registered names the returned set
    holds [core], and the empty request yields exactly the set with [core]
    alone. *)
Theorem resolve_dependencies_core root depth R :
  4 ≤ depth → Forall (registered (init root)) R →
  (∃ res, resolve_dependencies (init root) depth R = Returned res ∧ "core" ∈ res)
  ∧ resolve_dependencies (init root) depth [] = Returned {[ "core" ]}.
Proof.
  intros Hdepth HR. split.
  - destruct (declared_resolve_total root depth R Hdepth HR) as [res Hres].
    exists res. split; [done|].
    by apply resolve_dependencies_returned in Hres as (_ & Hcore & _).
  - destruct depth as [|depth]; [lia|].
    unfold resolve_dependencies. simpl.
    rewrite decide_False; [|set_solver].
    by rewrite (right_id_L ∅ (∪)).
Qed.

Lemma resolve_dependencies_core_witness :
  (∃ res, resolve_dependencies (init "/repo") 4 ["file_utils"] = Returned res ∧ "core" ∈ res)
  ∧ resolve_dependencies (init "/repo") 4 [] = Returned {[ "core" ]}.
Proof.
  apply (resolve_dependencies_core "/repo" 4 ["file_utils"]).
  - lia.
  - repeat constructor; by eexists.
Defined.

(** C8: resolving is idempotent.  For every requested list of registered
    names the resolver returns a set, and resolving any listing of that
    set returns the same set again. *)
Theorem resolve_dependencies_idempotent root depth R :
  4 ≤ depth → Forall (registered (init root)) R →
  ∃ res, resolve_dependencies (init root) depth R = Returned res
         ∧ ∀ listing : list string, (∀ n, n ∈ listing ↔ n ∈ res) →
             resolve_dependencies (init root) depth listing = Returned res.
Proof.
  intros Hdepth HR.
  destruct (declared_resolve_total root depth R Hdepth HR) as [res Hres].
  exists res. split; [done|]. intros listing Hlisting.
  apply resolve_dependencies_returned in Hres as ([Hclosed Hreg] & Hcore & _).
  destruct (declared_resolve_total root depth listing Hdepth) as [res' Hres'].
  { apply Forall_forall. intros n Hn. by apply Hreg, Hlisting. }
  rewrite Hres'. f_equal. apply set_eq. intros n. split.
  - revert n. apply elem_of_subseteq.
    apply (resolve_dependencies_least _ _ _ _ _ Hclosed Hcore) in Hres'; [done|].
    intros n. apply Hlisting.
  - intros Hn. apply resolve_dependencies_returned in Hres' as (_ & _ & Hin).
    by apply Hin, Hlisting.
Qed.

Lemma resolve_dependencies_idempotent_witness :
  ∃ res, resolve_dependencies (init "/repo") 4 ["debug"] = Returned res
         ∧ ∀ listing : list string, (∀ n, n ∈ listing ↔ n ∈ res) →
             resolve_dependencies (init "/repo") 4 listing = Returned res.
Proof.
  apply (resolve_dependencies_idempotent "/repo" 4 ["debug"]).
  - lia.
  - repeat constructor; by eexists.
Defined.

(** C9: the resolver is inflationary and stays inside the registry.  For
    every requested list of registered names it returns a set that holds
    every requested name and only names present in the registry. *)
Theorem resolve_dependencies_inflationary root depth R :
  4 ≤ depth → Forall (registered (init root)) R →
  ∃ res, resolve_dependencies (init root) depth R = Returned res
         ∧ (∀ n, n ∈ R → n ∈ res)
         ∧ (∀ m, m ∈ res → m ∈ dict_keys (modules (init root))).
Proof.
  intros Hdepth HR.
  destruct (declared_resolve_total root depth R Hdepth HR) as [res Hres].
  exists res. split; [done|].
  apply resolve_dependencies_returned in Hres as ([_ Hreg] & _ & Hin).
  split; [done|]. intros m Hm.
  destruct (Hreg m Hm) as [info Hinfo].
  apply dict_get_Some_elem in Hinfo.
  apply list_elem_of_fmap. by exists (m, info).
Qed.

Lemma resolve_dependencies_inflationary_witness :
  ∃ res, resolve_dependencies (init "/repo") 7 ["memory"; "debug"] = Returned res
         ∧ (∀ n, n ∈ ["memory"; "debug"] → n ∈ res)
         ∧ (∀ m, m ∈ res → m ∈ dict_keys (modules (init "/repo"))).
Proof.
  apply (resolve_dependencies_inflationary "/repo" 7 ["memory"; "debug"]).
  - lia.
  - repeat constructor; by eexists.
Defined.

(** ** Dependency cycles *)

Section Cycles.
Variable self : ModularBuildSystem.

Lemma closed_reaches (s : gset string) a b :
  dependency_closed self s → reaches self a b → a ∈ s → b ∈ s.
Proof.
  intros Hclosed Hreach. induction Hreach as [|x y z [info [Hget Hy]] _ IH]; [done|].
  intros Hx. apply IH. by eapply Hclosed.
Qed.




Lemma for_each_raised body names r e :
  for_each body names r = Raised e →
  ∃ n a, n ∈ names ∧ body n a = Raised e.
Proof.
  revert r. induction names as [|n l IH]; simpl; intros r; [done|].
  destruct (body n r) as [r1|e1] eqn:Hn.
  - intros (m & a & Hm & Hbody)%IH. exists m, a. split; [by right | done].
  - intros [= ->]. exists n, r. split; [left | done].
Qed.

End Cycles.






(** ** Gathering sources *)

Section Sources.
Context {World : Type} `{!Host World}.
Variable self : ModularBuildSystem.

Lemma collect_module_sources_spec srcs acc w :
  ∃ evs, collect_module_sources self srcs acc w
         = (Returned (acc ++ filter (λ p, path_exists p w)
                                    (path_join (src_dir self) <$> srcs)), w, evs).
Proof.
  revert acc. induction srcs as [|src rest IH]; intros acc; simpl.
  - exists []. by rewrite filter_nil, (right_id_L [] (++)).
  - unfold mbind, M_bind, exists_. rewrite filter_cons.
    destruct (path_exists (path_join (src_dir self) src) w) eqn:Hex; simpl.
    + destruct (IH (acc ++ [path_join (src_dir self) src])) as [evs ->].
      exists evs. by rewrite <-(assoc_L (++)).
    + unfold print. destruct (IH acc) as [evs ->].
      by eexists.
Qed.

Lemma collect_sources_from_spec module_names acc w :
  Forall (registered self) module_names →
  ∃ evs, collect_sources_from self module_names acc w
         = (Returned (acc ++ (module_names ≫= module_sources self w)), w, evs).
Proof.
  intros Hreg. revert acc.
  induction Hreg as [|name rest [module Hget] _ IH]; intros acc; simpl.
  - exists []. by rewrite (right_id_L [] (++)).
  - unfold mbind at 1, M_bind at 1, lift, module_of. rewrite Hget.
    unfold mbind at 1, M_bind at 1.
    destruct (collect_module_sources_spec (sources module) acc w) as [evs1 ->].
    destruct (IH (acc ++ filter (λ p, path_exists p w)
                           (path_join (src_dir self) <$> sources module))) as [evs2 ->].
    eexists. unfold module_sources at 2. rewrite Hget.
    by rewrite <-(assoc_L (++)).
Qed.
End Sources.

(** C2, as the code is: [collect_sources] walks the set in its iteration
    order and appends, for each module, those of its declared sources that
    exist; nothing is put in registry order and nothing is de-duplicated.
    Two listings of one set of registered modules therefore yield the same
    sources up to order: the two sequences are permutations of one
    another. *)
Theorem collect_sources_iteration_order {World : Type} `{!Host World}
    (self : ModularBuildSystem) (first second : list string) (w : World) :
  Forall (registered self) first → first ≡ₚ second →
  ∃ evs1 evs2,
    collect_sources self first w
      = (Returned (first ≫= module_sources self w), w, evs1)
    ∧ collect_sources self second w
      = (Returned (second ≫= module_sources self w), w, evs2)
    ∧ first ≫= module_sources self w ≡ₚ second ≫= module_sources self w.
Proof.
  intros Hreg Hperm.
  assert (Forall (registered self) second) as Hreg' by by rewrite <-Hperm.
  destruct (collect_sources_from_spec self first [] w Hreg) as [evs1 H1].
  destruct (collect_sources_from_spec self second [] w Hreg') as [evs2 H2].
  exists evs1, evs2. split_and!; [done | done |].
  by rewrite Hperm.
Qed.

Lemma collect_sources_iteration_order_witness :
  ∃ evs1 evs2,
    collect_sources (init "/repo") ["math_utils"; "core"; "test_framework"] []
      = (Returned (["math_utils"; "core"; "test_framework"]
                     ≫= module_sources (init "/repo") []), [], evs1)
    ∧ collect_sources (init "/repo") ["core"; "test_framework"; "math_utils"] []
      = (Returned (["core"; "test_framework"; "math_utils"]
                     ≫= module_sources (init "/repo") []), [], evs2)
    ∧ ["math_utils"; "core"; "test_framework"] ≫= module_sources (init "/repo") []
      ≡ₚ ["core"; "test_framework"; "math_utils"] ≫= module_sources (init "/repo") [].
Proof.
  apply (collect_sources_iteration_order (init "/repo")
           ["math_utils"; "core"; "test_framework"]
           ["core"; "test_framework"; "math_utils"] []).
  - repeat constructor; by eexists.
  - apply (bool_decide_unpack _). by vm_compute.
Defined.

(** C2, as the claim states it, fails: the resolved set of a request for
    [string_utils] and [math_utils] is dependency-closed, and its two
    listings below yield different source sequences, the second of them
    against the declaration order of the registry. *)
Lemma collect_sources_not_registry_order :
  resolve_dependencies (init "/repo") 4 ["string_utils"; "math_utils"]
    = Returned (list_to_set ["core"; "string_utils"; "math_utils"])
  ∧ (list_to_set ["core"; "string_utils"; "math_utils"] : gset string)
    = list_to_set ["core"; "math_utils"; "string_utils"]
  ∧ collect_sources (init "/repo") ["core"; "string_utils"; "math_utils"] []
    = (Returned ["/repo/src/modules/string_utils.cpp";
                 "/repo/src/modules/math_utils.cpp"], [], [])
  ∧ collect_sources (init "/repo") ["core"; "math_utils"; "string_utils"] []
    = (Returned ["/repo/src/modules/math_utils.cpp";
                 "/repo/src/modules/string_utils.cpp"], [], [])
  ∧ collect_sources (init "/repo") ["core"; "string_utils"; "math_utils"] []
    ≠ collect_sources (init "/repo") ["core"; "math_utils"; "string_utils"] [].
Proof. split_and!; by vm_compute. Qed.

(** ** Events of a run *)

Section Runs.
Context {World : Type} `{!Host World}.

(** How a sequence of two computations runs. *)
Lemma bind_run {A B} (m : M World A) (k : A → M World B) w :
  (m ≫= k) w
  = match m w with
    | (Returned a, w1, evs1) => (((k a w1).1.1, (k a w1).1.2), evs1 ++ (k a w1).2)
    | (Raised e, w1, evs1) => (Raised e, w1, evs1)
    end.
Proof.
  unfold mbind, M_bind. destruct (m w) as [[[a|e] w1] evs1]; [|done].
  by destruct (k a w1) as [[r w2] evs2].
Qed.

Lemma bind_lift_returned {A B} (a : A) (k : A → M World B) w :
  (lift (Returned a) ≫= k) w = k a w.
Proof. rewrite bind_run. simpl. by destruct (k a w) as [[??]?]. Qed.

Lemma bind_lift_raised {A B} e (k : A → M World B) w :
  (lift (Raised e) ≫= k) w = (Raised e, w, []).
Proof. by rewrite bind_run. Qed.

Lemma bind_print {B} line (k : unit → M World B) w :
  (print line ≫= k) w = ((k () w).1, EvPrint line :: (k () w).2).
Proof. rewrite bind_run. simpl. by destruct (k () w) as [[??]?]. Qed.

Lemma bind_mret {A B} (a : A) (k : A → M World B) w :
  (mret a ≫= k) w = k a w.
Proof. apply bind_lift_returned. Qed.

Lemma collect_module_sources_quiet self srcs acc w :
  Forall quiet (collect_module_sources self srcs acc w).2.
Proof.
  revert acc. induction srcs as [|src rest IH]; intros acc; simpl; [done|].
  rewrite bind_run. unfold exists_.
  destruct (path_exists _ w); simpl; [apply IH|].
  rewrite bind_run. simpl. constructor; [done | apply IH].
Qed.

Lemma collect_sources_from_quiet self module_names acc w :
  Forall quiet (collect_sources_from self module_names acc w).2.
Proof.
  revert acc w. induction module_names as [|name rest IH]; intros acc w; simpl; [done|].
  rewrite bind_run. unfold lift.
  destruct (module_of self name) as [module|e]; simpl; [|done].
  rewrite bind_run.
  pose proof (collect_module_sources_quiet self (sources module) acc w) as Hq.
  destruct (collect_module_sources self (sources module) acc w) as [[[acc'|e] w1] evs1];
    simpl in *; [|done].
  apply Forall_app. split; [done | apply IH].
Qed.
End Runs.

(** ** A failed compilation *)

Lemma quiet_not_archive evs : Forall quiet evs → Forall not_archive evs.
Proof. intros Hq. eapply Forall_impl; [exact Hq|]. by intros []. Qed.

Lemma quiet_not_compile evs : Forall quiet evs → Forall not_compile evs.
Proof. intros Hq. eapply Forall_impl; [exact Hq|]. by intros []. Qed.

Lemma not_compile_elem evs src cmd result :
  Forall not_compile evs → EvCompile src cmd result ∉ evs.
Proof. intros Hall Hin. by apply (proj1 (Forall_forall _ _) Hall) in Hin. Qed.

Section CompileFailure.
Context {World : Type} `{!Host World}.

(** The compile loop starts no archiver, and a failed compilation is the
    last thing it does. *)
Lemma compile_objects_failure obj_cmd_of obj_file_of srcs obj_files (w : World) :
  Forall not_archive (compile_objects obj_cmd_of obj_file_of srcs obj_files w).2
  ∧ ∀ src cmd result,
      EvCompile src cmd result ∈ (compile_objects obj_cmd_of obj_file_of srcs obj_files w).2 →
      returncode result ≠ 0%Z →
      (compile_objects obj_cmd_of obj_file_of srcs obj_files w).1.1 = Returned None
      ∧ ∃ before, (compile_objects obj_cmd_of obj_file_of srcs obj_files w).2
                  = before ++ compile_failure_report src cmd result.
Proof.
  revert obj_files w. induction srcs as [|s rest IH]; intros obj_files w; simpl.
  { split; [done|]. by intros ??? ?%elem_of_nil. }
  rewrite bind_run. unfold lift.
  destruct (obj_cmd_of s) as [obj_cmd|e]; simpl.
  2:{ split; [done|]. by intros ??? ?%elem_of_nil. }
  rewrite bind_run. simpl. rewrite bind_run. unfold run_process.
  destruct (subprocess_run obj_cmd None w) as [result w1]; simpl.
  case_decide as Hrc.
  - repeat (rewrite bind_run; simpl).
    split; [by repeat constructor|].
    intros src cmd result' Hin Hfail.
    split; [done|]. exists [EvPrint ("Compiling " +:+ path_name s +:+ "...")].
    apply elem_of_cons in Hin as [?|Hin]; [done|].
    apply elem_of_cons in Hin as [[= -> -> ->]|Hin]; [done|].
    apply elem_of_cons in Hin as [?|Hin]; [done|].
    apply elem_of_cons in Hin as [?|Hin]; [done|].
    by apply elem_of_nil in Hin.
  - destruct (IH (obj_files ++ [obj_file_of s]) w1) as [Harch Hfail].
    split; [by repeat constructor|].
    intros src cmd result' Hin Hrc'.
    apply elem_of_cons in Hin as [?|Hin]; [done|].
    apply elem_of_cons in Hin as [[= -> -> ->]|Hin].
    { exfalso. apply Hrc'. by apply dec_stable. }
    destruct (Hfail _ _ _ Hin Hrc') as [Hret [before Hevs]].
    split; [done|].
    exists (EvPrint ("Compiling " +:+ path_name s +:+ "...")
              :: EvCompile s obj_cmd result :: before).
    simpl. by rewrite Hevs.
Qed.
End CompileFailure.

Section BuildFailure.
Context {World : Type} `{!Host World}.

Lemma create_library_not_compile lib_cmd output_file (w : World) :
  Forall not_compile (create_library lib_cmd output_file w).2.
Proof.
  unfold create_library. rewrite bind_run; simpl. rewrite bind_run.
  unfold run_process. destruct (subprocess_run lib_cmd None w) as [result w1]; simpl.
  case_decide; repeat (rewrite bind_run; simpl); by repeat constructor.
Qed.

(** The compile loop followed by the archiver. *)
Lemma compile_then_archive obj_cmd_of obj_file_of srcs
    (archive : list string → M World bool) (w : World) src cmd result :
  (∀ obj_files w', Forall not_compile (archive obj_files w').2) →
  let run :=
    (objs ← compile_objects obj_cmd_of obj_file_of srcs [];
     match objs with
     | None => mret false
     | Some obj_files => archive obj_files
     end) w in
  EvCompile src cmd result ∈ run.2 → returncode result ≠ 0%Z →
  run.1.1 = Returned false
  ∧ Forall not_archive run.2
  ∧ ∃ before, run.2 = before ++ compile_failure_report src cmd result.
Proof.
  intros Harchive. simpl. rewrite bind_run.
  destruct (compile_objects_failure obj_cmd_of obj_file_of srcs [] w) as [Hno Hfail].
  specialize (Hfail src cmd result).
  destruct (compile_objects obj_cmd_of obj_file_of srcs [] w) as [[[[objs|]|e] w1] evs];
    simpl in *.
  - intros [Hin|Hin]%elem_of_app Hrc.
    + by destruct (Hfail Hin Hrc) as [? _].
    + by apply (not_compile_elem _ _ _ _ (Harchive objs w1)) in Hin.
  - rewrite (right_id_L [] (++)). intros Hin Hrc.
    destruct (Hfail Hin Hrc) as [_ Hlast]. done.
  - intros Hin Hrc. by destruct (Hfail Hin Hrc) as [? _].
Qed.
End BuildFailure.

(** Events that start no process, put before a run, change nothing in
    how a failed compilation ends it. *)
Lemma failure_after_quiet (pre rest : list event) src cmd result :
  Forall quiet pre →
  (EvCompile src cmd result ∈ rest →
   Forall not_archive rest
   ∧ ∃ before, rest = before ++ compile_failure_report src cmd result) →
  EvCompile src cmd result ∈ pre ++ rest →
  Forall not_archive (pre ++ rest)
  ∧ ∃ before, pre ++ rest = before ++ compile_failure_report src cmd result.
Proof.
  intros Hpre Hrest [Hin|Hin]%elem_of_app.
  { by apply (not_compile_elem _ _ _ _ (quiet_not_compile _ Hpre)) in Hin. }
  destruct (Hrest Hin) as [Hno [before ->]]. split.
  - apply Forall_app. split; [by apply quiet_not_archive | done].
  - exists (pre ++ before). by rewrite (assoc_L (++)).
Qed.

(** C5, as the code is: when the compiler exits non-zero on a source,
    [build_library] returns [False] at once.  No archiver process was or
    is started, and the run ends with the failed compilation followed by
    the line [Compilation error <file name>:] and the captured standard
    error.  The report names the file by its base name; it does not name
    a module. *)
Theorem build_library_compile_failure {World : Type} `{!Host World}
    (self : ModularBuildSystem) (module_names : list string)
    (compiler build_type : string) (w : World)
    (src : Path) (cmd : list string) (result : CompletedProcess) :
  EvCompile src cmd result ∈ (build_library self module_names compiler build_type w).2 →
  returncode result ≠ 0%Z →
  (build_library self module_names compiler build_type w).1.1 = Returned false
  ∧ Forall not_archive (build_library self module_names compiler build_type w).2
  ∧ ∃ before,
      (build_library self module_names compiler build_type w).2
      = before ++
        [ EvCompile src cmd result;
          EvPrint (colorize ("Compilation error " +:+ path_name src +:+ ":") Colors.RED);
          EvPrint (stderr result) ].
Proof.
  unfold build_library.
  rewrite bind_run; simpl. rewrite bind_run; simpl. rewrite bind_run.
  pose proof (collect_sources_from_quiet self module_names [] (mkdir (build_dir self) w))
    as Hquiet.
  unfold collect_sources.
  destruct (collect_sources_from self module_names [] (mkdir (build_dir self) w))
    as [[[srcs|e] w1] evs1]; simpl in Hquiet; cbn [fst snd].
  2:{ intros Hin. exfalso.
      apply elem_of_cons in Hin as [?|Hin]; [done|].
      apply elem_of_cons in Hin as [?|Hin]; [done|].
      by apply (not_compile_elem _ _ _ _ (quiet_not_compile _ Hquiet)) in Hin. }
  match goal with
  | |- context [ (?m ≫= ?k) w1 ] => set (rest := (m ≫= k) w1)
  end.
  assert (EvCompile src cmd result ∈ rest.2 → returncode result ≠ 0%Z →
          rest.1.1 = Returned false
          ∧ Forall not_archive rest.2
          ∧ ∃ before, rest.2 = before ++ compile_failure_report src cmd result)
    as Hrest.
  { subst rest.
    destruct (collect_defines self module_names) as [defs|e];
      [rewrite bind_lift_returned | rewrite bind_lift_raised; by intros ?%elem_of_nil].
    destruct srcs as [|s0 srcs].
    { rewrite bind_print. simpl. intros Hin.
      apply elem_of_cons in Hin as [?|Hin]; [done | by apply elem_of_nil in Hin]. }
    destruct (get_compiler_command self compiler build_type) as [cmd0|e] eqn:Hcmd;
      [rewrite bind_lift_returned | rewrite bind_lift_raised; by intros ?%elem_of_nil].
    destruct (bool_decide (compiler = "cl"));
      apply compile_then_archive; intros obj_files w'; apply create_library_not_compile. }
  clearbody rest. rewrite !app_comm_cons.
  intros Hin Hrc.
  assert (Forall quiet (EvPrint
    (colorize ("Building library with modules: " +:+ join ", " (sorted module_names))
       Colors.BOLD) :: EvMkdir (build_dir self) :: evs1)) as Hpre
    by by repeat constructor.
  assert (EvCompile src cmd result ∈ rest.2) as Hin'.
  { apply elem_of_app in Hin as [Hin|Hin]; [|done].
    by apply (not_compile_elem _ _ _ _ (quiet_not_compile _ Hpre)) in Hin. }
  destruct (Hrest Hin' Hrc) as (Hret & Hno & Hlast).
  split; [done|]. by apply failure_after_quiet.
Qed.

Lemma build_library_compile_failure_witness :
  (build_library (init "/repo") ["core"; "math_utils"; "string_utils"] "clang++" "debug"
     [process_ok; process_failed "boom"]).1.1 = Returned false
  ∧ Forall not_archive
      (build_library (init "/repo") ["core"; "math_utils"; "string_utils"] "clang++" "debug"
         [process_ok; process_failed "boom"]).2
  ∧ ∃ before,
      (build_library (init "/repo") ["core"; "math_utils"; "string_utils"] "clang++" "debug"
         [process_ok; process_failed "boom"]).2
      = before ++
        [ EvCompile "/repo/src/modules/string_utils.cpp"
            ["clang++"; "-std=c++17"; "-Wall"; "-Wextra"; "-Wpedantic"; "-g"; "-O0";
             "-DBADCPPLIB_ENABLE_CORE"; "-DBADCPPLIB_ENABLE_MATH";
             "-DBADCPPLIB_ENABLE_STRING"; "-I/repo/include"; "-c";
             "/repo/src/modules/string_utils.cpp"; "-o";
             "/repo/build_cmake/string_utils.o"]
            (process_failed "boom");
          EvPrint (colorize ("Compilation error "
                               +:+ path_name "/repo/src/modules/string_utils.cpp" +:+ ":")
                     Colors.RED);
          EvPrint (stderr (process_failed "boom")) ].
Proof.
  apply (build_library_compile_failure (init "/repo")
           ["core"; "math_utils"; "string_utils"] "clang++" "debug"
           [process_ok; process_failed "boom"]).
  - vm_compute. do 5 apply list_elem_of_further. apply list_elem_of_here.
  - simpl. lia.
Defined.

(** C5, as the claim states it, fails in what the report names.  The two
    registries differ only in the module that owns [socket.cpp]; when its
    compilation fails, both runs are the same, event for event: the report
    gives the file and the diagnostics, and the first line lists every
    module of the build, so none is named as the owner of the file. *)
Lemma compile_failure_report_omits_module :
  build_library net_owns_socket ["core"; "net"; "gfx"] "g++" "release"
    [process_failed "socket.cpp:1: error"]
  = (Returned false, [],
     [ EvPrint (colorize "Building library with modules: core, gfx, net" Colors.BOLD);
       EvMkdir "/repo/build_cmake";
       EvPrint "Compiling socket.cpp...";
       EvCompile "/repo/src/modules/socket.cpp"
         ["g++"; "-std=c++17"; "-Wall"; "-Wextra"; "-Wpedantic"; "-O2"; "-DNDEBUG";
          "-DENABLE_CORE"; "-DENABLE_NET"; "-DENABLE_GFX"; "-I/repo/include"; "-c";
          "/repo/src/modules/socket.cpp"; "-o"; "/repo/build_cmake/socket.o"]
         (process_failed "socket.cpp:1: error");
       EvPrint (colorize "Compilation error socket.cpp:" Colors.RED);
       EvPrint "socket.cpp:1: error" ])
  ∧ build_library gfx_owns_socket ["core"; "net"; "gfx"] "g++" "release"
      [process_failed "socket.cpp:1: error"]
    = build_library net_owns_socket ["core"; "net"; "gfx"] "g++" "release"
        [process_failed "socket.cpp:1: error"].
Proof. split; by vm_compute. Qed.

(** ** The test run *)





Section TestRun.
Context {World : Type} `{!Host World}.

Lemma bind_run_process {B} tag cmd cwd (k : CompletedProcess → M World B) (w : World) :
  (run_process tag cmd cwd ≫= k) w
  = ((k (subprocess_run cmd cwd w).1 (subprocess_run cmd cwd w).2).1,
     tag cmd (subprocess_run cmd cwd w).1
       :: (k (subprocess_run cmd cwd w).1 (subprocess_run cmd cwd w).2).2).
Proof.
  rewrite bind_run. unfold run_process.
  destruct (subprocess_run cmd cwd w) as [result w1]. simpl.
  by destruct (k result w1) as [[??]?].
Qed.

Variable self : ModularBuildSystem.
Variables (module_names : list string) (compiler build_type : string).
Hypothesis known_compiler : is_Some (dict_get (compilers self) compiler).
Hypothesis known_modules : Forall (registered self) module_names.




End TestRun.





(** ** Unknown modules *)

Section Unknown.
Variable self : ModularBuildSystem.

(** A returned set holds nothing that leads to an unregistered name. *)
Lemma unregistered_reachable_no_set depth R start missing res :
  start ∈ "core" :: R → reaches self start missing → ¬ registered self missing →
  resolve_dependencies self depth R ≠ Returned res.
Proof.
  intros Hstart Hreach Hmissing Hres.
  apply resolve_dependencies_returned in Hres as ([Hclosed Hreg] & Hcore & Hin).
  apply Hmissing, Hreg. eapply closed_reaches; [done | exact Hreach |].
  apply elem_of_cons in Hstart as [->|Hstart]; [done | by apply Hin].
Qed.

(** With a decreasing rank and enough depth, a call returns, or it raises
    the [ValueError] of line 147 for an unregistered name that the walk
    has reached. *)
Lemma resolve_module_unknown rank depth name r e :
  rank_decreasing self rank → rank name < depth →
  resolve_module self depth name r = Raised e →
  ∃ missing, ¬ registered self missing ∧ reaches self name missing
    ∧ e = ValueError ("Unknown module: " +:+ missing).
Proof.
  intros Hrank. revert name r.
  induction depth as [|depth IH]; intros name r Hlt; simpl; [lia|].
  case_decide; [done|].
  destruct (dict_get (modules self) name) as [module|] eqn:Hget.
  - destruct (for_each _ _ r) as [r1|e1] eqn:Hdeps; [done|].
    intros [= ->].
    apply for_each_raised in Hdeps as (d & a & Hd & Hraised).
    destruct (IH d a) as (missing & Hmissing & Hreach & ->); [|done|].
    { specialize (Hrank _ _ Hget d Hd). lia. }
    exists missing. split_and!; [done| |done].
    eapply rtc_l; [|exact Hreach]. by exists module.
  - intros [= <-]. exists name. split_and!; [|apply rtc_refl|done].
    intros [module Hmodule]. by rewrite Hget in Hmodule.
Qed.
End Unknown.

Section MainRuns.
Context {World : Type} `{!Host World}.

(** When the resolver raises, [main] prints the error and returns 1;
    nothing else happens. *)
Lemma main_resolve_raised root depth iter args (w : World) e :
  arg_list_modules args = false →
  resolve_dependencies (init root) depth (iter (modules_to_build (init root) args))
    = Raised e →
  main root depth iter args w
  = (Returned 1%Z, w, [EvPrint (colorize ("Error: " +:+ exn_str e) Colors.RED)]).
Proof.
  intros Hlist Hraised.
  unfold main. rewrite Hlist.
  unfold try_except. rewrite Hraised, bind_lift_raised, bind_print. by simpl.
Qed.
End MainRuns.

(** C4: on a registry without cycles, when a name absent from the
    registry is requested or is reached from the request through declared
    dependencies, the resolver fails with the unknown-module [ValueError],
    naming such a name, and returns no set; [main], whose registry is the
    declared one, then prints the error and returns 1 with the world
    untouched and no process started: no compile and no test phase takes
    place. *)
Theorem unknown_module_aborts (self : ModularBuildSystem) (rank : string → nat)
    (depth : nat) (R : list string) (start unknown : string) :
  rank_decreasing self rank → (∀ n, rank n < depth) →
  start ∈ "core" :: R → reaches self start unknown → ¬ registered self unknown →
  ∃ missing,
    ¬ registered self missing
    ∧ (∃ origin, origin ∈ "core" :: R ∧ reaches self origin missing)
    ∧ resolve_dependencies self depth R
      = Raised (ValueError ("Unknown module: " +:+ missing))
    ∧ ∀ (World : Type) (host : Host World) (root : Path)
        (iter : gset string → list string) (args : Args) (w : World),
        self = init root →
        arg_list_modules args = false →
        iter (modules_to_build (init root) args) = R →
        main root depth iter args w
        = (Returned 1%Z, w,
           [EvPrint (colorize ("Error: Unknown module: " +:+ missing) Colors.RED)]).
Proof.
  intros Hrank Hdepth Hstart Hreach Hunknown.
  destruct (resolve_dependencies self depth R) as [res|e] eqn:Hres.
  { by destruct (unregistered_reachable_no_set self depth R start unknown res). }
  pose proof Hres as Hraised. unfold resolve_dependencies in Hraised.
  apply for_each_raised in Hraised as (origin & r & Horigin & Hraised).
  destruct (resolve_module_unknown self rank depth origin r e Hrank (Hdepth _) Hraised)
    as (missing & Hmissing & Hfrom & ->).
  exists missing. split_and!; [done | by exists origin | done |].
  intros World host root iter args w -> Hlist Hiter.
  rewrite (main_resolve_raised root depth iter args w
             (ValueError ("Unknown module: " +:+ missing))); [done | done |].
  by rewrite Hiter.
Qed.

Lemma declared_rank_decreasing root : rank_decreasing (init root) declared_rank.
Proof. intros n info Hget d Hd. by apply (declared_ranked root n info Hget d Hd). Qed.

Lemma unknown_module_aborts_witness :
  ∃ missing,
    ¬ registered (init "/repo") missing
    ∧ (∃ origin, origin ∈ "core" :: ["math_utils"; "bogus"]
                 ∧ reaches (init "/repo") origin missing)
    ∧ resolve_dependencies (init "/repo") 4 ["math_utils"; "bogus"]
      = Raised (ValueError ("Unknown module: " +:+ missing))
    ∧ ∀ (World : Type) (host : Host World) (root : Path)
        (iter : gset string → list string) (args : Args) (w : World),
        init "/repo" = init root →
        arg_list_modules args = false →
        iter (modules_to_build (init root) args) = ["math_utils"; "bogus"] →
        main root 4 iter args w
        = (Returned 1%Z, w,
           [EvPrint (colorize ("Error: Unknown module: " +:+ missing) Colors.RED)]).
Proof.
  apply (unknown_module_aborts (init "/repo") declared_rank 4 ["math_utils"; "bogus"]
           "bogus" "bogus").
  - apply declared_rank_decreasing.
  - apply declared_rank_bound.
  - set_solver.
  - apply rtc_refl.
  - intros [module Hmodule]. vm_compute in Hmodule. discriminate.
Defined.

(** A dependency that is not registered: requesting [a] reaches [ghost],
    and the error names it. *)
Example unknown_dependency_raises :
  resolve_dependencies
    (with_modules [ ("core", plain_module [] [] []);
                    ("a", plain_module ["core"; "ghost"] [] []) ]) 1000 ["a"]
  = Raised (ValueError "Unknown module: ghost").
Proof. reflexivity. Qed.

(** ** The modules of a test run *)



Section MainTests.
Context {World : Type} `{!Host World}.


End MainTests.



(** * Further properties *)

(** ** What the resolver returns *)

Section Closure.
Variable self : ModularBuildSystem.

(** A completed call adds only names that [name] reaches. *)
Lemma resolve_module_reaches depth name r r' :
  resolve_module self depth name r = Returned r' →
  ∀ m, m ∈ r' → m ∈ r ∨ reaches self name m.
Proof.
  revert name r r'. induction depth as [|depth IH]; intros name r r'; simpl; [done|].
  case_decide as Hin; [intros [= <-] m Hm; by left|].
  destruct (dict_get (modules self) name) as [module|] eqn:Hget; [|done].
  destruct (for_each _ _ r) as [r1|e] eqn:Hdeps; [|done].
  intros [= <-] m [->%elem_of_singleton|Hm]%elem_of_union.
  { right. apply rtc_refl. }
  assert (∀ x, x ∈ r1 → x ∈ r ∨ ∃ d, d ∈ depends module ∧ reaches self d x) as Hr1.
  { apply (for_each_inv _ (λ s, ∀ x, x ∈ s → x ∈ r ∨ ∃ d, d ∈ depends module
                                                         ∧ reaches self d x)
             _ _ _ Hdeps); [by left|].
    intros d a b Hd Ha Hb x Hx.
    destruct (IH _ _ _ Hb x Hx) as [Hxa|Hreach]; [by apply Ha|].
    right. by exists d. }
  destruct (Hr1 m Hm) as [?|(d & Hd & Hreach)]; [by left|].
  right. eapply rtc_l; [|exact Hreach]. by exists module.
Qed.

(** A returned set is the set of the names that [core] and the request
    reach. *)
Lemma resolve_dependencies_exact depth R res :
  resolve_dependencies self depth R = Returned res →
  ∀ m, m ∈ res ↔ ∃ origin, origin ∈ "core" :: R ∧ reaches self origin m.
Proof.
  intros Hres m. split.
  - revert m. unfold resolve_dependencies in Hres.
    apply (for_each_inv _ (λ s, ∀ m, m ∈ s → ∃ origin, origin ∈ "core" :: R
                                                      ∧ reaches self origin m)
             _ _ _ Hres).
    + by intros m ?%elem_of_empty.
    + intros n a b Hn Ha Hb m Hm.
      destruct (resolve_module_reaches _ _ _ _ Hb m Hm) as [?|Hreach]; [by apply Ha|].
      by exists n.
  - intros (origin & Horigin & Hreach).
    apply resolve_dependencies_returned in Hres as ([Hclosed _] & Hcore & Hin).
    eapply closed_reaches; [done | exact Hreach |].
    apply elem_of_cons in Horigin as [->|Horigin]; [done | by apply Hin].
Qed.

(** More call depth changes no completed call. *)
Lemma for_each_depth_mono (small large : string → gset string → outcome (gset string))
    names r o :
  (∀ n a b, small n a = b → b ≠ Raised RecursionError → large n a = b) →
  for_each small names r = o → o ≠ Raised RecursionError →
  for_each large names r = o.
Proof.
  intros Hbody. revert r. induction names as [|n l IH]; intros r; simpl; [done|].
  destruct (small n r) as [r1|e] eqn:Hn.
  - intros Ho Hne. rewrite (Hbody n r (Returned r1)); [by apply IH | done | done].
  - intros <- Hne. by rewrite (Hbody n r (Raised e)).
Qed.

Lemma resolve_module_depth_mono depth depth' name r o :
  depth ≤ depth' →
  resolve_module self depth name r = o → o ≠ Raised RecursionError →
  resolve_module self depth' name r = o.
Proof.
  revert depth' name r o.
  induction depth as [|depth IH]; intros depth' name r o Hle; simpl.
  { by intros <- ?. }
  destruct depth' as [|depth']; [lia|]. simpl.
  case_decide; [done|].
  destruct (dict_get (modules self) name) as [module|]; [|done].
  destruct (for_each (resolve_module self depth) (depends module) r) as [r1|e] eqn:Hdeps.
  - intros <- _.
    rewrite (for_each_depth_mono (resolve_module self depth)
               (resolve_module self depth') _ _ (Returned r1)); [done| |done|done].
    intros n a b. apply IH. lia.
  - intros <- Hne.
    rewrite (for_each_depth_mono (resolve_module self depth)
               (resolve_module self depth') _ _ (Raised e)); [done| |done|done].
    intros n a b. apply IH. lia.
Qed.
End Closure.

Lemma dict_get_is_Some_keys {V} (d : list (string * V)) key :
  is_Some (dict_get d key) ↔ key ∈ dict_keys d.
Proof.
  unfold dict_keys. induction d as [|[k v] d IH]; simpl.
  - split; [by intros [? ?] | by intros ?%elem_of_nil].
  - case_decide as Hk.
    + subst. split; [intros _; left | by eexists].
    + rewrite IH. split; [by right|]. by intros [?|?]%elem_of_cons.
Qed.

Section Ranked.
Variable self : ModularBuildSystem.
Variable rank : string → nat.
Variable depth : nat.
Hypothesis registry_ranked : ranked self rank.
Hypothesis core_registered : registered self "core".
Hypothesis depth_enough : ∀ n, rank n < depth.

Lemma ranked_total R :
  Forall (registered self) R → ∃ res, resolve_dependencies self depth R = Returned res.
Proof.
  intros HR. by apply (resolve_dependencies_total self rank).
Qed.

(** Resolving a listing of a closed set of registered names that holds
    [core] gives that set back. *)
Lemma resolve_closed_listing (T : gset string) (listing : list string) :
  closed_registered self T → "core" ∈ T → (∀ n, n ∈ listing ↔ n ∈ T) →
  resolve_dependencies self depth listing = Returned T.
Proof.
  intros [Hclosed Hreg] Hcore Hlisting.
  destruct (ranked_total listing) as [res Hres].
  { apply Forall_forall. intros n Hn. by apply Hreg, Hlisting. }
  rewrite Hres. f_equal. apply set_eq. intros n. split.
  - revert n. apply elem_of_subseteq.
    apply (resolve_dependencies_least self T depth listing res); [done..| |done].
    intros n. apply Hlisting.
  - intros Hn. apply resolve_dependencies_returned in Hres as (_ & _ & Hin).
    by apply Hin, Hlisting.
Qed.

(** The set of all registered names is closed. *)
Lemma all_keys_closed :
  closed_registered self (list_to_set (dict_keys (modules self))).
Proof.
  split.
  - intros m info _ Hget d Hd. apply elem_of_list_to_set, dict_get_is_Some_keys.
    by apply (registry_ranked m info Hget d Hd).
  - intros m Hm. apply elem_of_list_to_set in Hm. by apply dict_get_is_Some_keys.
Qed.
End Ranked.

(** X1: on a registry without cycles or unregistered dependencies, the
    resolver returns exactly the names that [core] and the requested names
    reach through declared dependencies: nothing is left out and nothing
    else is added. *)
Theorem resolve_dependencies_reachable (self : ModularBuildSystem)
    (rank : string → nat) (depth : nat) (R : list string) :
  ranked self rank → registered self "core" → (∀ n, rank n < depth) →
  Forall (registered self) R →
  ∃ res, resolve_dependencies self depth R = Returned res
         ∧ ∀ m, m ∈ res ↔ ∃ origin, origin ∈ "core" :: R ∧ reaches self origin m.
Proof.
  intros Hrank Hcore Hdepth HR.
  destruct (ranked_total self rank depth Hrank Hcore Hdepth R HR) as [res Hres].
  exists res. split; [done|]. by apply (resolve_dependencies_exact self depth R).
Qed.

Lemma resolve_dependencies_reachable_witness :
  ∃ res, resolve_dependencies (init "/repo") 4 ["debug"] = Returned res
         ∧ ∀ m, m ∈ res ↔ ∃ origin, origin ∈ "core" :: ["debug"]
                                     ∧ reaches (init "/repo") origin m.
Proof.
  apply (resolve_dependencies_reachable (init "/repo") declared_rank 4 ["debug"]).
  - apply declared_ranked.
  - apply declared_core_registered.
  - apply declared_rank_bound.
  - repeat constructor; by eexists.
Defined.

(** X2: the result depends only on which names are requested, not on
    their order or on repetitions: two requests with the same members
    resolve to the same set. *)
Theorem resolve_dependencies_same_members (self : ModularBuildSystem)
    (rank : string → nat) (depth : nat) (R1 R2 : list string) :
  ranked self rank → registered self "core" → (∀ n, rank n < depth) →
  Forall (registered self) R1 → (∀ n, n ∈ R1 ↔ n ∈ R2) →
  ∃ res, resolve_dependencies self depth R1 = Returned res
         ∧ resolve_dependencies self depth R2 = Returned res.
Proof.
  intros Hrank Hcore Hdepth HR1 Hsame.
  assert (Forall (registered self) R2) as HR2.
  { apply Forall_forall. intros n Hn. apply Hsame in Hn.
    by eapply Forall_forall in HR1. }
  destruct (ranked_total self rank depth Hrank Hcore Hdepth R1 HR1) as [res1 Hres1].
  destruct (ranked_total self rank depth Hrank Hcore Hdepth R2 HR2) as [res2 Hres2].
  exists res1. split; [done|]. rewrite Hres2. f_equal. apply set_eq. intros m.
  rewrite (resolve_dependencies_exact self depth R1 res1 Hres1 m).
  rewrite (resolve_dependencies_exact self depth R2 res2 Hres2 m).
  split; intros (origin & Horigin & Hreach); exists origin; (split; [|done]);
    apply elem_of_cons in Horigin as [->|Horigin]; try (by left);
    right; by apply Hsame.
Qed.

Lemma resolve_dependencies_same_members_witness :
  ∃ res, resolve_dependencies (init "/repo") 4 ["debug"; "memory"] = Returned res
         ∧ resolve_dependencies (init "/repo") 4 ["memory"; "debug"; "memory"]
           = Returned res.
Proof.
  apply (resolve_dependencies_same_members (init "/repo") declared_rank 4
           ["debug"; "memory"] ["memory"; "debug"; "memory"]).
  - apply declared_ranked.
  - apply declared_core_registered.
  - apply declared_rank_bound.
  - repeat constructor; by eexists.
  - intros n. rewrite !elem_of_cons, !elem_of_nil. tauto.
Defined.

(** X3: resolving two requests together gives the union of what each
    resolves to. *)
Theorem resolve_dependencies_union (self : ModularBuildSystem)
    (rank : string → nat) (depth : nat) (R1 R2 : list string) :
  ranked self rank → registered self "core" → (∀ n, rank n < depth) →
  Forall (registered self) R1 → Forall (registered self) R2 →
  ∃ res1 res2,
    resolve_dependencies self depth R1 = Returned res1
    ∧ resolve_dependencies self depth R2 = Returned res2
    ∧ resolve_dependencies self depth (R1 ++ R2) = Returned (res1 ∪ res2).
Proof.
  intros Hrank Hcore Hdepth HR1 HR2.
  destruct (ranked_total self rank depth Hrank Hcore Hdepth R1 HR1) as [res1 Hres1].
  destruct (ranked_total self rank depth Hrank Hcore Hdepth R2 HR2) as [res2 Hres2].
  destruct (ranked_total self rank depth Hrank Hcore Hdepth (R1 ++ R2)) as [res Hres].
  { by apply Forall_app. }
  exists res1, res2. split_and!; [done..|]. rewrite Hres. f_equal.
  apply set_eq. intros m. rewrite elem_of_union.
  rewrite (resolve_dependencies_exact self depth _ _ Hres m).
  rewrite (resolve_dependencies_exact self depth _ _ Hres1 m).
  rewrite (resolve_dependencies_exact self depth _ _ Hres2 m).
  split.
  - intros (origin & Horigin & Hreach).
    apply elem_of_cons in Horigin as [->|[Horigin|Horigin]%elem_of_app].
    + left. exists "core". split; [left | done].
    + left. exists origin. split; [by right | done].
    + right. exists origin. split; [by right | done].
  - intros [(origin & Horigin & Hreach)|(origin & Horigin & Hreach)];
      exists origin; (split; [|done]);
      apply elem_of_cons in Horigin as [->|Horigin]; try (by left);
      right; apply elem_of_app; [by left | by right].
Qed.

Lemma resolve_dependencies_union_witness :
  ∃ res1 res2,
    resolve_dependencies (init "/repo") 4 ["debug"] = Returned res1
    ∧ resolve_dependencies (init "/repo") 4 ["math_utils"; "memory"] = Returned res2
    ∧ resolve_dependencies (init "/repo") 4 (["debug"] ++ ["math_utils"; "memory"])
      = Returned (res1 ∪ res2).
Proof.
  apply (resolve_dependencies_union (init "/repo") declared_rank 4
           ["debug"] ["math_utils"; "memory"]).
  - apply declared_ranked.
  - apply declared_core_registered.
  - apply declared_rank_bound.
  - repeat constructor; by eexists.
  - repeat constructor; by eexists.
Defined.

(** X4: a result that is not the exhaustion of the call depth does not
    depend on the depth: with a larger bound the resolver returns the same
    set or raises the same error. *)
Theorem resolve_dependencies_depth (self : ModularBuildSystem)
    (depth depth' : nat) (R : list string) (o : outcome (gset string)) :
  depth ≤ depth' →
  resolve_dependencies self depth R = o → o ≠ Raised RecursionError →
  resolve_dependencies self depth' R = o.
Proof.
  intros Hle Hrun Hne. unfold resolve_dependencies in *.
  apply (for_each_depth_mono (resolve_module self depth)); [|done..].
  intros n a b. by apply resolve_module_depth_mono.
Qed.

Lemma resolve_dependencies_depth_witness :
  resolve_dependencies (init "/repo") 1000 ["debug"; "bogus"]
  = Raised (ValueError "Unknown module: bogus").
Proof.
  apply (resolve_dependencies_depth (init "/repo") 4 1000 ["debug"; "bogus"]).
  - lia.
  - reflexivity.
  - discriminate.
Defined.

(** ** The presets of the command line *)

Lemma minimal_closed root : closed_registered (init root) {[ "core"; "result" ]}.
Proof.
  split.
  - intros m info [->%elem_of_singleton| ->%elem_of_singleton]%elem_of_union Hget d Hd;
      vm_compute in Hget; injection Hget as <-; simpl in Hd.
    + by apply elem_of_nil in Hd.
    + apply list_elem_of_singleton in Hd as ->. apply elem_of_union_l.
      by apply elem_of_singleton.
  - intros m [->%elem_of_singleton| ->%elem_of_singleton]%elem_of_union; by eexists.
Qed.

(** X5: [--minimal] takes precedence over [--full] and over the names
    given with [--modules], and resolves to [core] and [result] alone;
    otherwise [--full], or [all] among the names, resolves to every module
    of the registry and the other names given are ignored, unknown ones
    included. *)
Theorem presets_resolve (root : Path) (depth : nat) (iter : gset string → list string)
    (args : Args) :
  4 ≤ depth → (∀ s n, n ∈ iter s ↔ n ∈ s) →
  arg_minimal args = true ∨ arg_full args = true ∨ "all" ∈ arg_modules args →
  resolve_dependencies (init root) depth (iter (modules_to_build (init root) args))
  = Returned (if arg_minimal args then {[ "core"; "result" ]}
              else list_to_set (dict_keys declared_modules)).
Proof.
  intros Hdepth Hiter Hpreset.
  assert (∀ n, declared_rank n < depth) as Hbound.
  { intros n. pose proof (declared_rank_bound n). lia. }
  unfold modules_to_build. destruct (arg_minimal args) eqn:Hminimal.
  - apply (resolve_closed_listing (init root) declared_rank depth (declared_ranked root)
             (declared_core_registered root) Hbound).
    + apply minimal_closed.
    + apply elem_of_union_l. by apply elem_of_singleton.
    + intros n. apply Hiter.
  - assert (arg_full args || bool_decide ("all" ∈ arg_modules args) = true) as ->.
    { destruct Hpreset as [?|[->|Hall]]; [done|done|].
      rewrite (bool_decide_eq_true_2 _ Hall). by destruct (arg_full args). }
    apply (resolve_closed_listing (init root) declared_rank depth (declared_ranked root)
             (declared_core_registered root) Hbound).
    + apply (all_keys_closed (init root) declared_rank (declared_ranked root)).
    + apply elem_of_list_to_set.
      by apply dict_get_is_Some_keys, (declared_core_registered root).
    + intros n. apply Hiter.
Qed.

Lemma presets_resolve_witness :
  resolve_dependencies (init "/repo") 4
    (elements (modules_to_build (init "/repo")
       {| arg_modules := ["all"; "bogus"]; arg_list_modules := false;
          arg_minimal := false; arg_full := false; arg_compiler := "g++";
          arg_build_type := "release"; arg_test := false; arg_test_only := false |}))
  = Returned (list_to_set (dict_keys declared_modules)).
Proof.
  apply (presets_resolve "/repo" 4 elements
           {| arg_modules := ["all"; "bogus"]; arg_list_modules := false;
              arg_minimal := false; arg_full := false; arg_compiler := "g++";
              arg_build_type := "release"; arg_test := false; arg_test_only := false |}).
  - lia.
  - intros s n. apply elem_of_elements.
  - right. right. simpl. apply list_elem_of_here.
Defined.

(** ** Gathering sources and defines, exactly *)

Section Gathering.
Context {World : Type} `{!Host World}.
Variable self : ModularBuildSystem.

Lemma bind_returned {A B} (m : M World A) (k : A → M World B) (w w1 : World) a evs1 :
  m w = (Returned a, w1, evs1) →
  (m ≫= k) w = ((k a w1).1, evs1 ++ (k a w1).2).
Proof. intros Hm. rewrite bind_run, Hm. by destruct (k a w1) as [[??]?]. Qed.

Lemma bind_raised {A B} (m : M World A) (k : A → M World B) (w w1 : World) e evs1 :
  m w = (Raised e, w1, evs1) → (m ≫= k) w = (Raised e, w1, evs1).
Proof. intros Hm. by rewrite bind_run, Hm. Qed.

Lemma bind_make_dir {B} dir (k : unit → M World B) (w : World) :
  (make_dir dir ≫= k) w = ((k () (mkdir dir w)).1, EvMkdir dir :: (k () (mkdir dir w)).2).
Proof. by rewrite (bind_returned _ _ w (mkdir dir w) () [EvMkdir dir]). Qed.

Lemma collect_module_sources_exact srcs acc (w : World) :
  collect_module_sources self srcs acc w
  = (Returned (acc ++ filter (λ p, path_exists p w) (path_join (src_dir self) <$> srcs)),
     w,
     (λ p, EvPrint (colorize ("Warning: file " +:+ p +:+ " not found") Colors.YELLOW))
       <$> filter (λ p, ¬ path_exists p w) (path_join (src_dir self) <$> srcs)).
Proof.
  revert acc. induction srcs as [|src rest IH]; intros acc; simpl.
  - by rewrite !filter_nil, (right_id_L [] (++)).
  - rewrite bind_run. unfold exists_. rewrite !filter_cons.
    destruct (path_exists (path_join (src_dir self) src) w) eqn:Hex; simpl.
    + rewrite IH. by rewrite <-(assoc_L (++)).
    + rewrite bind_print, IH. done.
Qed.

Lemma collect_sources_from_exact module_names acc (w : World) :
  Forall (registered self) module_names →
  collect_sources_from self module_names acc w
  = (Returned (acc ++ (module_names ≫= module_sources self w)), w,
     module_names ≫= module_warnings self w).
Proof.
  intros Hreg. revert acc.
  induction Hreg as [|name rest [module Hget] _ IH]; intros acc; simpl.
  - by rewrite (right_id_L [] (++)).
  - unfold module_of. rewrite Hget, bind_lift_returned.
    rewrite (bind_returned _ _ _ _ _ _ (collect_module_sources_exact _ _ _)).
    rewrite IH. cbn [fst snd mbind list_bind].
    assert (module_sources self w name
            = filter (λ p, path_exists p w) (path_join (src_dir self) <$> sources module))
      as -> by (unfold module_sources; by rewrite Hget).
    assert (module_warnings self w name
            = (λ p, EvPrint (colorize ("Warning: file " +:+ p +:+ " not found")
                               Colors.YELLOW))
                <$> filter (λ p, ¬ path_exists p w)
                      (path_join (src_dir self) <$> sources module))
      as -> by (unfold module_warnings; by rewrite Hget).
    by rewrite <-(assoc_L (++)).
Qed.

Lemma collect_sources_from_missing before name after acc (w : World) :
  Forall (registered self) before → ¬ registered self name →
  collect_sources_from self (before ++ name :: after) acc w
  = (Raised (KeyError name), w, before ≫= module_warnings self w).
Proof.
  intros Hreg Hname. revert acc.
  induction Hreg as [|n rest [module Hget] _ IH]; intros acc; simpl.
  - unfold module_of. destruct (dict_get (modules self) name) eqn:Hget.
    + destruct Hname. by eexists.
    + by rewrite bind_lift_raised.
  - unfold module_of at 1. rewrite Hget, bind_lift_returned.
    rewrite (bind_returned _ _ _ _ _ _ (collect_module_sources_exact _ _ _)).
    rewrite IH. cbn [fst snd mbind list_bind].
    assert (module_warnings self w n
            = (λ p, EvPrint (colorize ("Warning: file " +:+ p +:+ " not found")
                               Colors.YELLOW))
                <$> filter (λ p, ¬ path_exists p w)
                      (path_join (src_dir self) <$> sources module))
      as -> by (unfold module_warnings; by rewrite Hget).
    done.
Qed.
End Gathering.

Lemma collect_defines_from_exact self module_names acc :
  Forall (registered self) module_names →
  collect_defines_from self module_names acc
  = Returned (acc ++ (module_names ≫= module_defines self)).
Proof.
  intros Hreg. revert acc.
  induction Hreg as [|name rest [module Hget] _ IH]; intros acc; simpl.
  - by rewrite (right_id_L [] (++)).
  - unfold module_of. rewrite Hget, IH. cbn [mbind list_bind].
    assert (module_defines self name = defines module) as ->
      by (unfold module_defines; by rewrite Hget).
    by rewrite <-(assoc_L (++)).
Qed.

Lemma collect_defines_from_missing self before name after acc :
  Forall (registered self) before → ¬ registered self name →
  collect_defines_from self (before ++ name :: after) acc = Raised (KeyError name).
Proof.
  intros Hreg Hname. revert acc.
  induction Hreg as [|n rest [module Hget] _ IH]; intros acc; simpl.
  - unfold module_of. destruct (dict_get (modules self) name) eqn:Hget; [|done].
    destruct Hname. by eexists.
  - unfold module_of at 1. by rewrite Hget, IH.
Qed.

(** X6: a declared source that does not exist is no error.  For
    registered modules [collect_sources] returns the existing sources and
    prints one warning for each missing one, module by module in
    iteration order; it leaves the world as it is and starts no process. *)
Theorem collect_sources_warns {World : Type} `{!Host World}
    (self : ModularBuildSystem) (module_names : list string) (w : World) :
  Forall (registered self) module_names →
  collect_sources self module_names w
  = (Returned (module_names ≫= module_sources self w), w,
     module_names ≫= module_warnings self w).
Proof.
  intros Hreg. unfold collect_sources.
  by rewrite (collect_sources_from_exact self module_names [] w Hreg).
Qed.

Lemma collect_sources_warns_witness :
  @collect_sources unit empty_disk_host (init "/repo") ["core"; "math_utils"] ()
  = (Returned (["core"; "math_utils"]
                 ≫= @module_sources unit empty_disk_host (init "/repo") ()), (),
     ["core"; "math_utils"] ≫= @module_warnings unit empty_disk_host (init "/repo") ()).
Proof.
  apply (@collect_sources_warns unit empty_disk_host (init "/repo")
           ["core"; "math_utils"] ()).
  repeat constructor; by eexists.
Defined.

(** X7: a module name that is not in the registry makes [collect_sources]
    and [collect_defines] raise [KeyError] for the first such name in
    iteration order; the sources of the modules before it have been looked
    up, and their warnings printed. *)
Theorem gathering_missing_module {World : Type} `{!Host World}
    (self : ModularBuildSystem) (before : list string) (name : string)
    (after : list string) (w : World) :
  Forall (registered self) before → ¬ registered self name →
  collect_sources self (before ++ name :: after) w
  = (Raised (KeyError name), w, before ≫= module_warnings self w)
  ∧ collect_defines self (before ++ name :: after) = Raised (KeyError name).
Proof.
  intros Hreg Hname. split.
  - by apply collect_sources_from_missing.
  - by apply collect_defines_from_missing.
Qed.

Lemma gathering_missing_module_witness :
  collect_sources cyclic_system (["core"; "a"] ++ "test_framework" :: ["b"])
    ([] : list CompletedProcess)
  = (Raised (KeyError "test_framework"), [],
     ["core"; "a"] ≫= module_warnings cyclic_system ([] : list CompletedProcess))
  ∧ collect_defines cyclic_system (["core"; "a"] ++ "test_framework" :: ["b"])
    = Raised (KeyError "test_framework").
Proof.
  apply (gathering_missing_module cyclic_system ["core"; "a"] "test_framework" ["b"]
           ([] : list CompletedProcess)).
  - repeat constructor; by eexists.
  - intros [module Hmodule]. vm_compute in Hmodule. discriminate.
Defined.

(** X8: for registered modules [collect_defines] returns the defines of
    the modules one after the other in iteration order, so two listings of
    one set of modules give the same defines up to order. *)
Theorem collect_defines_iteration_order (self : ModularBuildSystem)
    (first second : list string) :
  Forall (registered self) first → first ≡ₚ second →
  collect_defines self first = Returned (first ≫= module_defines self)
  ∧ collect_defines self second = Returned (second ≫= module_defines self)
  ∧ first ≫= module_defines self ≡ₚ second ≫= module_defines self.
Proof.
  intros Hreg Hperm.
  assert (Forall (registered self) second) as Hreg' by by rewrite <-Hperm.
  unfold collect_defines. rewrite !collect_defines_from_exact by done.
  split_and!; [done | done |]. by rewrite Hperm.
Qed.

Lemma collect_defines_iteration_order_witness :
  collect_defines (init "/repo") ["result"; "core"]
  = Returned (["result"; "core"] ≫= module_defines (init "/repo"))
  ∧ collect_defines (init "/repo") ["core"; "result"]
    = Returned (["core"; "result"] ≫= module_defines (init "/repo"))
  ∧ ["result"; "core"] ≫= module_defines (init "/repo")
    ≡ₚ ["core"; "result"] ≫= module_defines (init "/repo").
Proof.
  apply (collect_defines_iteration_order (init "/repo") ["result"; "core"]
           ["core"; "result"]).
  - repeat constructor; by eexists.
  - apply (bool_decide_unpack _). by vm_compute.
Defined.

(** ** The library build, path by path *)


Section LibraryPaths.
Context {World : Type} `{!Host World}.


End LibraryPaths.

(** X9: when none of the modules has a source that exists, [build_library]
    returns [True] after the warnings for the missing files and starts no
    process; the compiler id is not looked at, so an unknown one is no
    error here. *)
Theorem build_library_no_sources {World : Type} `{!Host World}
    (self : ModularBuildSystem) (module_names : list string)
    (compiler build_type : string) (w : World) :
  Forall (registered self) module_names →
  module_names ≫= module_sources self (mkdir (build_dir self) w) = [] →
  build_library self module_names compiler build_type w
  = (Returned true, mkdir (build_dir self) w,
     [ EvPrint (colorize ("Building library with modules: "
                            +:+ join ", " (sorted module_names)) Colors.BOLD);
       EvMkdir (build_dir self) ]
     ++ (module_names ≫= module_warnings self (mkdir (build_dir self) w))
     ++ [ EvPrint (colorize "No source files to compile" Colors.YELLOW) ]).
Proof.
  intros Hreg Hnone. unfold build_library.
  rewrite bind_print, bind_make_dir. unfold collect_sources, collect_defines.
  rewrite (bind_returned _ _ _ _ _ _
             (collect_sources_from_exact self module_names [] _ Hreg)).
  rewrite (collect_defines_from_exact self module_names [] Hreg), bind_lift_returned.
  rewrite Hnone. by simpl.
Qed.

Lemma build_library_no_sources_witness :
  build_library (init "/repo") ["core"; "result"; "debug"] "no-such-compiler" "release"
    ([] : list CompletedProcess)
  = (Returned true, mkdir (build_dir (init "/repo")) [],
     [ EvPrint (colorize ("Building library with modules: "
                            +:+ join ", " (sorted ["core"; "result"; "debug"]))
                  Colors.BOLD);
       EvMkdir (build_dir (init "/repo")) ]
     ++ (["core"; "result"; "debug"]
           ≫= module_warnings (init "/repo") (mkdir (build_dir (init "/repo")) []))
     ++ [ EvPrint (colorize "No source files to compile" Colors.YELLOW) ]).
Proof.
  apply (build_library_no_sources (init "/repo") ["core"; "result"; "debug"]
           "no-such-compiler" "release" ([] : list CompletedProcess)).
  - repeat constructor; by eexists.
  - reflexivity.
Defined.

(** X10: with a source to compile and a compiler id that is not among the
    compilers, [build_library] raises the unknown-compiler [ValueError]
    before any process is started. *)
Theorem build_library_unknown_compiler {World : Type} `{!Host World}
    (self : ModularBuildSystem) (module_names : list string)
    (compiler build_type : string) (w : World) :
  Forall (registered self) module_names →
  module_names ≫= module_sources self (mkdir (build_dir self) w) ≠ [] →
  dict_get (compilers self) compiler = None →
  build_library self module_names compiler build_type w
  = (Raised (ValueError ("Unknown compiler: " +:+ compiler)),
     mkdir (build_dir self) w,
     [ EvPrint (colorize ("Building library with modules: "
                            +:+ join ", " (sorted module_names)) Colors.BOLD);
       EvMkdir (build_dir self) ]
     ++ (module_names ≫= module_warnings self (mkdir (build_dir self) w))).
Proof.
  intros Hreg Hsome Hcompiler. unfold build_library.
  rewrite bind_print, bind_make_dir. unfold collect_sources, collect_defines.
  rewrite (bind_returned _ _ _ _ _ _
             (collect_sources_from_exact self module_names [] _ Hreg)).
  rewrite (collect_defines_from_exact self module_names [] Hreg), bind_lift_returned.
  simpl in *.
  destruct (module_names ≫= module_sources self (mkdir (build_dir self) w))
    as [|s0 srcs]; [done|].
  unfold get_compiler_command. rewrite Hcompiler, bind_lift_raised. simpl.
  by rewrite (right_id_L [] (++)).
Qed.

Lemma build_library_unknown_compiler_witness :
  build_library (init "/repo") ["core"; "math_utils"] "gcc" "release"
    ([] : list CompletedProcess)
  = (Raised (ValueError ("Unknown compiler: " +:+ "gcc")),
     mkdir (build_dir (init "/repo")) [],
     [ EvPrint (colorize ("Building library with modules: "
                            +:+ join ", " (sorted ["core"; "math_utils"])) Colors.BOLD);
       EvMkdir (build_dir (init "/repo")) ]
     ++ (["core"; "math_utils"]
           ≫= module_warnings (init "/repo") (mkdir (build_dir (init "/repo")) []))).
Proof.
  apply (build_library_unknown_compiler (init "/repo") ["core"; "math_utils"]
           "gcc" "release" ([] : list CompletedProcess)).
  - repeat constructor; by eexists.
  - by vm_compute.
  - reflexivity.
Defined.



Section LibrarySuccess.
Context {World : Type} `{!Host World}.


End LibrarySuccess.



(** ** Test discovery and the edges of the test run *)

Section Discovery.
Context {World : Type} `{!Host World}.

Lemma discover_module_tests_exact self names test_files (w : World) :
  discover_module_tests self names test_files w
  = (Returned (test_files ++ filter (λ p, path_exists p w) (test_file_of self <$> names)),
     w, []).
Proof.
  revert test_files. induction names as [|name rest IH]; intros test_files; simpl.
  - by rewrite filter_nil, (right_id_L [] (++)).
  - rewrite bind_run. unfold exists_. cbn [fst snd]. rewrite IH, filter_cons.
    fold (test_file_of self name).
    destruct (path_exists (test_file_of self name) w); simpl; [|done].
    by rewrite <-(assoc_L (++)).
Qed.

Lemma discover_tests_run self module_names (w : World) :
  discover_tests self module_names w
  = (Returned ((if path_exists (path_join (tests_dir self) "basic_test.cpp") w
                then [path_join (tests_dir self) "basic_test.cpp"] else [])
               ++ filter (λ p, path_exists p w) (test_file_of self <$> module_names)),
     w, []).
Proof.
  unfold discover_tests. rewrite bind_run. unfold exists_. cbn [fst snd].
  by rewrite discover_module_tests_exact.
Qed.
End Discovery.

(** X12: test discovery finds the basic test, when it exists, and then,
    in the iteration order of the modules, the test file of each module
    that has one on disk.  It reads the disk only: it changes nothing,
    prints nothing, and accepts names that are not in the registry. *)
Theorem discover_tests_exact {World : Type} `{!Host World}
    (self : ModularBuildSystem) (module_names : list string) (w : World) :
  discover_tests self module_names w
  = (Returned ((if path_exists (path_join (tests_dir self) "basic_test.cpp") w
                then [path_join (tests_dir self) "basic_test.cpp"] else [])
               ++ filter (λ p, path_exists p w) (test_file_of self <$> module_names)),
     w, []).
Proof. apply discover_tests_run. Qed.

(** X13: when neither the basic test nor the test file of any module
    exists, [build_tests] reports that no test file was found and returns
    [True]; it starts no process and looks at neither the compiler id nor
    the registry. *)
Theorem build_tests_no_tests {World : Type} `{!Host World}
    (self : ModularBuildSystem) (module_names : list string)
    (compiler build_type : string) (w : World) :
  path_exists (path_join (tests_dir self) "basic_test.cpp") w = false →
  (∀ name, name ∈ module_names → path_exists (test_file_of self name) w = false) →
  build_tests self module_names compiler build_type w
  = (Returned true, w,
     [ EvPrint (colorize "Building and running tests" Colors.BOLD);
       EvPrint (colorize "Test files not found" Colors.YELLOW) ]).
Proof.
  intros Hbasic Hnone. unfold build_tests.
  rewrite bind_print, (bind_returned _ _ _ _ _ _ (discover_tests_run self module_names w)).
  rewrite Hbasic.
  assert (filter (λ p, path_exists p w) (test_file_of self <$> module_names) = []) as ->.
  { induction module_names as [|name rest IH]; [done|].
    rewrite fmap_cons, filter_cons_False.
    - apply IH. intros n Hn. apply Hnone. by right.
    - rewrite Hnone; [by intros [] | left]. }
  by simpl.
Qed.

Lemma build_tests_no_tests_witness :
  @build_tests unit empty_disk_host (init "/repo") ["core"; "bogus"] "gcc" "release" ()
  = (Returned true, (),
     [ EvPrint (colorize "Building and running tests" Colors.BOLD);
       EvPrint (colorize "Test files not found" Colors.YELLOW) ]).
Proof.
  apply (@build_tests_no_tests unit empty_disk_host (init "/repo") ["core"; "bogus"]
           "gcc" "release" ()).
  - reflexivity.
  - intros name _. reflexivity.
Defined.

(** X14: with at least one test discovered and a compiler id that is not
    among the compilers, [build_tests] raises the unknown-compiler
    [ValueError] at the first test, after announcing it and before any
    process is started. *)
Theorem build_tests_unknown_compiler {World : Type} `{!Host World}
    (self : ModularBuildSystem) (module_names : list string)
    (compiler build_type : string) (w : World) (first : Path) (others : list Path) :
  discover_tests self module_names w = (Returned (first :: others), w, []) →
  dict_get (compilers self) compiler = None →
  build_tests self module_names compiler build_type w
  = (Raised (ValueError ("Unknown compiler: " +:+ compiler)), w,
     [ EvPrint (colorize "Building and running tests" Colors.BOLD);
       EvPrint (NL +:+ "Test: " +:+ colorize (path_name first) Colors.CYAN) ]).
Proof.
  intros Hdiscover Hcompiler. unfold build_tests.
  rewrite bind_print, (bind_returned _ _ _ _ _ _ Hdiscover). cbn [fst snd app].
  assert (run_test self module_names compiler build_type first w
          = (Raised (ValueError ("Unknown compiler: " +:+ compiler)), w,
             [EvPrint (NL +:+ "Test: " +:+ colorize (path_name first) Colors.CYAN)]))
    as Hfirst.
  { unfold run_test. rewrite bind_print. unfold get_compiler_command.
    by rewrite Hcompiler, bind_lift_raised. }
  assert (run_tests self module_names compiler build_type (first :: others) 0 w
          = (Raised (ValueError ("Unknown compiler: " +:+ compiler)), w,
             [EvPrint (NL +:+ "Test: " +:+ colorize (path_name first) Colors.CYAN)]))
    as Hloop.
  { simpl. by rewrite (bind_raised _ _ _ _ _ _ Hfirst). }
  by rewrite (bind_raised _ _ _ _ _ _ Hloop).
Qed.

Lemma build_tests_unknown_compiler_witness :
  build_tests (init "/repo") ["core"] "gcc" "release" ([] : list CompletedProcess)
  = (Raised (ValueError ("Unknown compiler: " +:+ "gcc")), [],
     [ EvPrint (colorize "Building and running tests" Colors.BOLD);
       EvPrint (NL +:+ "Test: "
                  +:+ colorize (path_name "/repo/tests/basic_test.cpp") Colors.CYAN) ]).
Proof.
  apply (build_tests_unknown_compiler (init "/repo") ["core"] "gcc" "release"
           ([] : list CompletedProcess) "/repo/tests/basic_test.cpp"
           ["/repo/tests/modules/test_core.cpp"]).
  - reflexivity.
  - reflexivity.
Defined.

(** ** The command line, phase by phase *)



Section Phases.
Context {World : Type} `{!Host World}.

Lemma bind_returned_inv {A B} (m : M World A) (k : A → M World B) (w w' : World) b evs :
  (m ≫= k) w = (Returned b, w', evs) →
  ∃ a w1 evs1 evs2,
    m w = (Returned a, w1, evs1) ∧ k a w1 = (Returned b, w', evs2) ∧ evs = evs1 ++ evs2.
Proof.
  rewrite bind_run. destruct (m w) as [[[a|e] w1] evs1]; [|done].
  destruct (k a w1) as [[r w2] evs2] eqn:Hk. simpl.
  intros [= -> -> <-]. by exists a, w1, evs1, evs2.
Qed.


Lemma list_module_items_run items (w : World) :
  ∃ evs, list_module_items items w = (Returned (), w, evs)
         ∧ Forall quiet evs
         ∧ ∀ name info, (name, info) ∈ items →
             EvPrint ("  " +:+ colorize name Colors.YELLOW +:+ " "
                        +:+ (if required info then colorize "[REQUIRED]" Colors.GREEN
                             else "")) ∈ evs
             ∧ EvPrint ("    " +:+ description info) ∈ evs.
Proof.
  induction items as [|[name info] rest (evs & IH & Hquiet & Hlines)]; simpl.
  - exists []. split_and!; [done..|]. by intros ?? ?%elem_of_nil.
  - rewrite !bind_print. cbn [fst snd].
    destruct (depends info) as [|d deps]; [rewrite bind_mret | rewrite bind_print];
      rewrite bind_print, IH; cbn [fst snd];
      (eexists; split_and!; [done | by repeat constructor |]);
      intros n i [[= -> ->]|Hin]%elem_of_cons;
      try (split; [by left | by right; left]);
      destruct (Hlines n i Hin) as [? ?]; split; by repeat right.
Qed.
End Phases.

(** X15: with [--list-modules], [main] prints the listing, with a line
    for the name and a line for the description of every module of the
    registry, and returns 0; it resolves nothing and starts no process,
    whatever else is on the command line. *)
Theorem main_list_modules {World : Type} `{!Host World}
    (root : Path) (depth : nat) (iter : gset string → list string)
    (args : Args) (w : World) :
  arg_list_modules args = true →
  ∃ evs, main root depth iter args w = (Returned 0%Z, w, evs)
         ∧ Forall quiet evs
         ∧ ∀ name info, (name, info) ∈ declared_modules →
             EvPrint ("  " +:+ colorize name Colors.YELLOW +:+ " "
                        +:+ (if required info then colorize "[REQUIRED]" Colors.GREEN
                             else "")) ∈ evs
             ∧ EvPrint ("    " +:+ description info) ∈ evs.
Proof.
  intros Hlist. unfold main. rewrite Hlist. unfold list_modules.
  rewrite bind_run. rewrite !bind_print. cbn [fst snd].
  destruct (list_module_items_run (modules (init root)) w) as (evs & -> & Hquiet & Hlines).
  simpl. rewrite (right_id_L [] (++)).
  eexists. split_and!; [done | by repeat constructor |].
  intros name info Hin. destruct (Hlines name info Hin) as [? ?].
  split; by do 2 right.
Qed.

Lemma main_list_modules_witness :
  ∃ evs,
    main "/repo" 0 elements
      {| arg_modules := ["bogus"]; arg_list_modules := true; arg_minimal := false;
         arg_full := false; arg_compiler := "gcc"; arg_build_type := "release";
         arg_test := true; arg_test_only := false |} ([] : list CompletedProcess)
    = (Returned 0%Z, [], evs)
    ∧ Forall quiet evs
    ∧ ∀ name info, (name, info) ∈ declared_modules →
        EvPrint ("  " +:+ colorize name Colors.YELLOW +:+ " "
                   +:+ (if required info then colorize "[REQUIRED]" Colors.GREEN
                        else "")) ∈ evs
        ∧ EvPrint ("    " +:+ description info) ∈ evs.
Proof.
  apply (main_list_modules "/repo" 0 elements
           {| arg_modules := ["bogus"]; arg_list_modules := true; arg_minimal := false;
              arg_full := false; arg_compiler := "gcc"; arg_build_type := "release";
              arg_test := true; arg_test_only := false |} ([] : list CompletedProcess)).
  reflexivity.
Defined.

(** X16: [main] lets no exception of the resolver, the library build or
    the test run escape: it always returns, and its exit status is 0 or
    1. *)
Theorem main_exit_status {World : Type} `{!Host World}
    (root : Path) (depth : nat) (iter : gset string → list string)
    (args : Args) (w : World) :
  ∃ code w' evs, main root depth iter args w = (Returned code, w', evs)
                 ∧ (code = 0%Z ∨ code = 1%Z).
Proof.
  unfold main. destruct (arg_list_modules args).
  { rewrite bind_run. unfold list_modules. rewrite !bind_print. cbn [fst snd].
    destruct (list_module_items_run (modules (init root)) w) as (evs & -> & _).
    simpl. eexists _, _, _. split; [done | by left]. }
  unfold try_except.
  match goal with
  | |- context [ match ?body w with _ => _ end ] =>
      destruct (body w) as [[[code|e] w1] evs] eqn:Hbody
  end.
  - exists code, w1, evs. split; [done|].
    apply bind_returned_inv in Hbody as (resolved & ? & ? & ? & _ & Hbody & _).
    apply bind_returned_inv in Hbody as (? & ? & ? & ? & _ & Hbody & _).
    apply bind_returned_inv in Hbody as (? & ? & ? & ? & _ & Hbody & _).
    apply bind_returned_inv in Hbody as (? & ? & ? & ? & _ & Hbody & _).
    apply bind_returned_inv in Hbody as (? & ? & ? & ? & _ & Hbody & _).
    apply bind_returned_inv in Hbody as (success & ? & ? & ? & _ & Hbody & _).
    injection Hbody as <- _ _. destruct success; [by left | by right].
  - rewrite bind_print. cbn [fst snd]. eexists _, _, _. split; [done | by right].
Qed.



(** ** The processes of a test run *)

Section TestCommands.
Context {World : Type} `{!Host World}.
Variable self : ModularBuildSystem.
Variables (module_names : list string) (compiler build_type : string).
Hypothesis known_modules : Forall (registered self) module_names.

Lemma run_test_events test_file (w : World) :
  Forall (test_run_event self module_names compiler build_type)
    (run_test self module_names compiler build_type test_file w).2.
Proof.
  unfold run_test. rewrite bind_print. cbn [snd]. constructor; [done|].
  destruct (get_compiler_command self compiler build_type) as [cmd0|e] eqn:Hcmd0;
    [rewrite bind_lift_returned | by rewrite bind_lift_raised].
  unfold collect_defines.
  rewrite (collect_defines_from_exact self module_names [] known_modules).
  rewrite bind_lift_returned. unfold collect_sources.
  rewrite (bind_returned _ _ _ _ _ _
             (collect_sources_from_exact self module_names [] w known_modules)).
  cbn [snd]. apply Forall_app. split.
  { apply Forall_forall. intros ev (name & Hev & _)%list_elem_of_bind.
    unfold module_warnings in Hev. destruct (dict_get (modules self) name).
    - by apply list_elem_of_fmap in Hev as (p & -> & _).
    - by apply elem_of_nil in Hev. }
  rewrite bind_run_process.
  match goal with
  | |- context [ subprocess_run ?c None w ] =>
      destruct (subprocess_run c None w) as [result w1]
  end.
  cbn [fst snd]. constructor.
  { exists w. unfold test_command, test_executable. rewrite Hcmd0.
    by rewrite !(left_id_L [] (++)), <-!(assoc_L (++)). }
  case_decide as Hstatus.
  - rewrite !bind_print. by repeat constructor.
  - rewrite bind_run_process.
    match goal with
    | |- context [ subprocess_run ?c ?d w1 ] =>
        destruct (subprocess_run c d w1) as [result' w2]
    end.
    cbn [fst snd]. constructor; [done|].
    case_decide; rewrite bind_print; cbn [snd]; (constructor; [done|]); [done|].
    do 2 (case_decide; rewrite ?bind_print, ?bind_mret; cbn [snd]);
      by repeat constructor.
Qed.

Lemma run_tests_events test_files success_count (w : World) :
  Forall (test_run_event self module_names compiler build_type)
    (run_tests self module_names compiler build_type test_files success_count w).2.
Proof.
  revert success_count w.
  induction test_files as [|test_file rest IH]; intros success_count w; simpl; [done|].
  rewrite bind_run.
  pose proof (run_test_events test_file w) as Hfirst.
  destruct (run_test self module_names compiler build_type test_file w)
    as [[[passed|e] w1] evs1]; cbn [fst snd] in *; [|done].
  apply Forall_app. split; [done | apply IH].
Qed.
End TestCommands.

(** X18: every process of a test run is the compilation of a test or the
    run, with no argument, of a test executable; [build_tests] compiles no
    library object and starts no archiver.  A test is compiled with the
    compiler's command, the defines of all the modules, the include
    directory, the test file and every existing source of the modules: the
    executable is built from sources alone, not from the library archive. *)
Theorem build_tests_processes {World : Type} `{!Host World}
    (self : ModularBuildSystem) (module_names : list string)
    (compiler build_type : string) (w : World) :
  Forall (registered self) module_names →
  Forall (test_run_event self module_names compiler build_type)
    (build_tests self module_names compiler build_type w).2.
Proof.
  intros Hmodules. unfold build_tests.
  rewrite bind_print, (bind_returned _ _ _ _ _ _ (discover_tests_run self module_names w)).
  cbn [snd]. constructor; [done|]. rewrite (left_id_L [] (++)).
  match goal with
  | |- context [ match ?tests with [] => _ | _ :: _ => _ end ] =>
      destruct tests as [|first others]
  end.
  { rewrite bind_print. by repeat constructor. }
  rewrite bind_run.
  pose proof (run_tests_events self module_names compiler build_type Hmodules
                (first :: others) 0 w) as Hloop.
  destruct (run_tests self module_names compiler build_type (first :: others) 0 w)
    as [[[success_count|e] w1] evs]; cbn [fst snd] in *; [|done].
  apply Forall_app. split; [done|].
  rewrite bind_print. cbn [snd]. constructor; [done|].
  case_decide; rewrite bind_print; by repeat constructor.
Qed.

Lemma build_tests_processes_witness :
  Forall (test_run_event (init "/repo") ["core"; "math_utils"] "g++" "release")
    (build_tests (init "/repo") ["core"; "math_utils"] "g++" "release"
       [process_ok; process_failed "assert"]).2.
Proof.
  apply (build_tests_processes (init "/repo") ["core"; "math_utils"] "g++" "release"
           [process_ok; process_failed "assert"]).
  repeat constructor; by eexists.
Defined.

(** ** The order of the library build *)

Section LibraryOrder.
Context {World : Type} `{!Host World}.


End LibraryOrder.


